(** * Emakia Node: keyword fallback scorers and trust aggregator

    A shallow embedding of the four Cerebras "agents"
    (agents/toxicityAgent.js, agents/biasAgent.js,
    agents/misinformationAgent.js, agents/coordinationAgent.js), of the
    aggregator classifiers/classifyPost.js and of calculateOverallRisk
    (routes/classify.js), with the properties stated about them.

    Modelling conventions.
    - JavaScript numbers are exact rationals ([Q]); binary rounding is
      not modelled.  The properties are stated so as not to depend on
      it: they relate the fields of one record to each other (a severity
      to the score beside it, a flag to the severity, a score to the
      count of its additions), compare scores, or take values that
      binary arithmetic computes without error.
    - Text is a string of 8-bit characters.  [toLowerCase] lowers the
      letters A-Z and [split_ws] splits at the ASCII members of the
      regular-expression class \s (TAB, LF, VT, FF, CR, SPACE), which is
      what JavaScript does on ASCII text; a property that names the
      words of a text is stated for ASCII text.
    - A JavaScript object used as a map is an association list in
      insertion order, which is the order of Object.entries and
      Object.values for names that are not array indices; a property
      that names the order of a table's entries is stated for tables
      without such names.
    - Console output, the clock and the network are fields of an explicit
      [World] threaded through a state monad.
    - A module that exports a class is the class object with its static
      and its prototype members. *)

From Stdlib Require Import String Ascii List Bool Arith ZArith QArith Qminmax Qround Qabs Lia Lqa.
Import ListNotations.
Open Scope string_scope.
Open Scope list_scope.
Open Scope Q_scope.

(** ** JavaScript built-ins used by the agents *)

Module Js.

(** The values a caller can pass where a string is expected. *)
Inductive Value : Type :=
| VString (s : string)
| VNumber (q : Q)
| VBool (b : bool)
| VObject                       (* an array or a plain object *)
| VNull
| VUndefined.

(** Completion of a computation inside a [try] block. *)
Inductive Completion (A : Type) : Type :=
| Normal (a : A)
| Throw (message : string).
Arguments Normal {A} a.
Arguments Throw {A} message.

(** Sequencing inside one [try] block: an exception ends the block. *)
Definition andThen {A B : Type} (c : Completion A) (k : A -> Completion B)
  : Completion B :=
  match c with
  | Normal a => k a
  | Throw message => Throw message
  end.

Definition is_upper (c : ascii) : bool :=
  let n := nat_of_ascii c in (65 <=? n)%nat && (n <=? 90)%nat.

Definition lower_ascii (c : ascii) : ascii :=
  if is_upper c then ascii_of_nat (nat_of_ascii c + 32) else c.

(** [String.prototype.toLowerCase] on a primitive string. *)
Fixpoint toLowerCase (s : string) : string :=
  match s with
  | EmptyString => EmptyString
  | String c r => String (lower_ascii c) (toLowerCase r)
  end.

(** [text.toLowerCase()] on an arbitrary value: only strings carry the
    method; the call on anything else raises a TypeError. *)
Definition callToLowerCase (v : Value) : Completion string :=
  match v with
  | VString s => Normal (toLowerCase s)
  | VNumber _ | VBool _ | VObject =>
      Throw "TypeError: text.toLowerCase is not a function"
  | VNull | VUndefined => Throw "TypeError: Cannot read properties of null or undefined"
  end.

(** The ASCII members of the class \s: TAB, LF, VT, FF, CR, SPACE. *)
Definition is_space (c : ascii) : bool :=
  let n := nat_of_ascii c in ((9 <=? n)%nat && (n <=? 13)%nat) || (n =? 32)%nat.

Definition starts_with_space (s : string) : bool :=
  match s with
  | String c _ => is_space c
  | EmptyString => false
  end.

(** [s.split(/\s+/)]: the pieces between maximal runs of white space; a
    run at either end of [s] leaves an empty piece there, and the empty
    string splits into one empty piece. *)
Fixpoint split_ws (s : string) : list string :=
  match s with
  | EmptyString => [EmptyString]
  | String c r =>
      if is_space c then
        if starts_with_space r then split_ws r else EmptyString :: split_ws r
      else
        match split_ws r with
        | piece :: pieces => String c piece :: pieces
        | [] => [String c EmptyString]
        end
  end.

(** [w.includes(k)]: [k] occurs in [w] as a contiguous substring. *)
Fixpoint includes (w k : string) : bool :=
  String.prefix k w ||
  match w with
  | EmptyString => false
  | String _ r => includes r k
  end.

(** [keywords.some(keyword => word.includes(keyword))]. *)
Definition some_includes (keywords : list string) (word : string) : bool :=
  existsb (fun keyword => includes word keyword) keywords.

(** Property assignment [obj[k] = v] on an object kept in insertion order. *)
Fixpoint assign {V : Type} (obj : list (string * V)) (k : string) (v : V)
  : list (string * V) :=
  match obj with
  | [] => [(k, v)]
  | (k', v') :: r =>
      if String.eqb k' k then (k', v) :: r else (k', v') :: assign r k v
  end.

(** Property read [obj[k]]. *)
Fixpoint get {V : Type} (obj : list (string * V)) (k : string) : option V :=
  match obj with
  | [] => None
  | (k', v') :: r => if String.eqb k' k then Some v' else get r k
  end.

(** [Object.values(obj)]. *)
Definition values {V : Type} (obj : list (string * V)) : list V := map snd obj.

(** [xs.reduce((sum, x) => sum + x, 0)]. *)
Definition sum (xs : list Q) : Q := fold_left Qplus xs 0.

(** [x.toFixed(2)] read back as a number: the multiple of 1/100 nearest
    to [x], ties away from zero. *)
Definition toFixed2 (x : Q) : Q :=
  if Qle_bool 0 x
  then inject_Z (Qfloor (x * 100 + 0.5)) / 100
  else - (inject_Z (Qfloor ((- x) * 100 + 0.5)) / 100).

End Js.

(** ** The world the agents run in *)

(** What one [fetch] of the chat-completions endpoint comes to.
    [Rejected]: the promise rejects (transport error).  [Responded ok
    status content]: a response arrived with [response.ok = ok]; [content]
    is what [(await response.json()).choices[0].message.content] evaluates
    to, or the exception raised on the way there. *)
Inductive FetchOutcome : Type :=
| Rejected (reason : string)
| Responded (ok : bool) (status : nat) (content : Js.Completion string).

Record World : Type := mkWorld {
  clock : nat;                    (* the instant [new Date()] reads *)
  console : list string;          (* lines written by console.log / console.error *)
  network : list FetchOutcome;    (* outcomes of the fetch calls still to come *)
  requests : nat                  (* fetch calls issued so far *)
}.

Definition M (A : Type) : Type := World -> A * World.

Definition ret {A : Type} (a : A) : M A := fun w => (a, w).

Definition bind {A B : Type} (c : M A) (k : A -> M B) : M B :=
  fun w => let (a, w') := c w in k a w'.

Notation "x <- c ;; k" := (bind c (fun x => k))
  (at level 61, c at next level, right associativity).
Notation "c ;;; k" := (bind c (fun _ => k))
  (at level 61, right associativity).

(** [new Date().toISOString()]. *)
Definition newDate : M nat := fun w => (clock w, w).

(** [console.log(line)] and [console.error(line)]. *)
Definition console_log (line : string) : M unit :=
  fun w => (tt, mkWorld (clock w) (console w ++ [line]) (network w) (requests w)).

(** [await fetch(url, options)]: consumes the next outcome of the network,
    counts the request and lets time pass. *)
Definition fetch : M FetchOutcome :=
  fun w =>
    match network w with
    | [] => (Rejected "fetch failed",
             mkWorld (S (clock w)) (console w) [] (S (requests w)))
    | o :: rest => (o, mkWorld (S (clock w)) (console w) rest (S (requests w)))
    end.

(** ** Data model *)

(** category name -> keyword substrings, in the order of the object literal. *)
Definition PatternTable : Type := list (string * list string).

(** The value stored under [analysis.categories[category]]. *)
Record CategoryMatch : Type := mkCategoryMatch {
  score : Q;
  matches : list string;
  count : nat;
  correction : option string
}.

(** [categories] is an object keyed by category on the fallback path and
    the array of names the model sent on the remote path. *)
Inductive Categories : Type :=
| ByCategory (obj : list (string * CategoryMatch))
| CategoryNames (names : list string).

(** The object an agent returns.  The four agents name three fields
    differently (isToxic / hasBias / hasMisinformation / hasCoordination,
    toxicityScore / biasScore / misinformationScore / coordinationScore,
    flaggedWords / flaggedPhrases); they are [flagged], [aggregateScore]
    and [flaggedTokens] here.  A field the object lacks is [None]. *)
Record AnalysisRecord : Type := mkAnalysis {
  text : Js.Value;
  error : option string;
  flagged : bool;
  aggregateScore : Q;
  severity : string;
  categories : option Categories;
  flaggedTokens : option (list string);
  recommendations : option (list string);
  model : option string;
  timestamp : nat
}.

(** The categories object of a record, empty when the record has none. *)
Definition categoryObject (r : AnalysisRecord) : list (string * CategoryMatch) :=
  match categories r with
  | Some (ByCategory obj) => obj
  | _ => []
  end.

(** ** The keyword loop of the fallback scorers

    The four [fallbackAnalysis] methods run the same two nested loops and
    differ in the constant added per matching word, [increment]. *)

Section KeywordLoop.

Variable increment : Q.

(** One turn of [for (const word of words)]: the state is
    [(matches, categoryScore)]. *)
Definition wordStep (keywords : list string) (st : list string * Q) (word : string)
  : list string * Q :=
  if Js.some_includes keywords word
  then (fst st ++ [word], snd st + increment)
  else st.

Definition scanWords (keywords words : list string) : list string * Q :=
  fold_left (wordStep keywords) words ([], 0).

(** One turn of [for (const [category, keywords] of Object.entries(
    this.fallbackPatterns))]: the state is [(analysis.categories,
    analysis.flaggedWords)]. *)
Definition categoryStep (words : list string)
    (st : list (string * CategoryMatch) * list string)
    (entry : string * list string)
  : list (string * CategoryMatch) * list string :=
  let (category, keywords) := entry in
  let (found, categoryScore) := scanWords keywords words in
  if (0 <? length found)%nat
  then (Js.assign (fst st) category
          (mkCategoryMatch (Qmin categoryScore 1) found (length found) None),
        snd st ++ found)
  else st.

Definition scanCategories (patterns : PatternTable) (words : list string)
    (st : list (string * CategoryMatch) * list string)
  : list (string * CategoryMatch) * list string :=
  fold_left (categoryStep words) patterns st.

End KeywordLoop.

(** [categoryScores.length > 0 ? Math.min(sum / categoryScores.length, 1.0) : 0]
    with [categoryScores = Object.values(analysis.categories).map(cat => cat.score)]. *)
Definition overallScore (cats : list (string * CategoryMatch)) : Q :=
  let categoryScores := map score (Js.values cats) in
  if (0 <? length categoryScores)%nat
  then Qmin (Js.sum categoryScores / inject_Z (Z.of_nat (length categoryScores))) 1
  else 0.

(** The record returned from the [catch] block of a [fallbackAnalysis] or a
    [parseAIResponse]. *)
Definition degraded (originalText : Js.Value) (message : string) (now : nat)
  : AnalysisRecord :=
  mkAnalysis originalText (Some message) false 0 "error" None None None None now.

(** ** The agent objects

    server.js builds one object per concern and calls [agent.analyze(text)]
    on whichever is selected; [class] is the class the object was built
    from.  [factualErrors] exists on MisinformationAgent objects only and
    is empty elsewhere. *)

Inductive Concern : Type := Toxicity | Bias | Misinformation | Coordination.

(** [{ correct, score }] *)
Record Correction : Type := mkCorrection {
  correct : string;
  fixedScore : Q
}.

(** topic -> false statement -> correction, in the order of the literal. *)
Definition FactualTable : Type := list (string * list (string * Correction)).

Record Agent : Type := mkAgent {
  class : Concern;
  cerebrasApiKey : option string;
  modelName : string;
  fallbackPatterns : PatternTable;
  factualErrors : FactualTable
}.

(** [agent.fallbackPatterns = table]. *)
Definition withPatterns (a : Agent) (table : PatternTable) : Agent :=
  mkAgent (class a) (cerebrasApiKey a) (modelName a) table (factualErrors a).

(** ** ToxicityAgent (agents/toxicityAgent.js) *)

Module ToxicityAgent.

(** [new ToxicityAgent()] with [process.env.CEREBRAS_API_KEY = key]. *)
Definition new (key : option string) : Agent :=
  mkAgent Toxicity key "Qwen-3-32B"
    [ ("insults", ["stupid"; "idiot"; "dumb"; "fool"; "moron"; "imbecile"; "retard"; "cretin"]);
      ("hate_speech", ["hate"; "racist"; "bigot"; "nazi"; "supremacist"; "white power"; "black power"]);
      ("violence", ["kill"; "murder"; "attack"; "violence"; "weapon"; "bomb"; "shoot"; "stab"]);
      ("profanity", ["fuck"; "shit"; "damn"; "hell"; "bitch"; "ass"; "cunt"; "dick"; "pussy"]);
      ("threats", ["threaten"; "hurt you"; "kill you"; "attack you"; "destroy you"]);
      ("harassment", ["harass"; "stalk"; "bully"; "intimidate"; "terrorize"]) ]
    [].

Definition fallbackAnalysis (this : Agent) (text : Js.Value) : M AnalysisRecord :=
  match Js.callToLowerCase text with
  | Js.Normal lowerText =>
      let words := Js.split_ws lowerText in
      now <- newDate ;;
      let (cats, flaggedWords) :=
        scanCategories 0.3 (fallbackPatterns this) words ([], []) in
      let toxicityScore := overallScore cats in
      let (sev, isToxic) :=
        if Qle_bool 0.8 toxicityScore then ("critical", true)
        else if Qle_bool 0.6 toxicityScore then ("high", true)
        else if Qle_bool 0.4 toxicityScore then ("medium", true)
        else if Qle_bool 0.2 toxicityScore then ("low", true)
        else ("none", false) in
      let recs :=
        if isToxic then
          ["Toxic content detected. Consider moderation."] ++
          (match Js.get cats "insults" with
           | Some _ => ["Personal insults detected. Review for community guidelines."]
           | None => []
           end)
        else [] in
      ret (mkAnalysis text None isToxic toxicityScore sev
             (Some (ByCategory cats)) (Some flaggedWords) (Some recs)
             (Some "fallback-pattern-matcher") now)
  | Js.Throw _ =>
      console_log "Fallback analysis error:" ;;;
      now <- newDate ;;
      ret (degraded text "Both API and fallback analysis failed" now)
  end.

End ToxicityAgent.

(** ** BiasAgent (agents/biasAgent.js) *)

Module BiasAgent.

Definition new (key : option string) : Agent :=
  mkAgent Bias key "Qwen-3-32B"
    [ ("gender_bias", ["women can't"; "men are better"; "female driver"; "male nurse"]);
      ("racial_bias", ["race"; "ethnicity"; "minority"; "stereotype"; "prejudice"]);
      ("age_bias", ["old people"; "young people"; "millennial"; "boomer"]);
      ("religious_bias", ["religion"; "faith"; "atheist"; "believer"; "heathen"]);
      ("socioeconomic_bias", ["poor"; "rich"; "wealthy"; "poverty"; "privilege"]) ]
    [].

Definition fallbackAnalysis (this : Agent) (text : Js.Value) : M AnalysisRecord :=
  match Js.callToLowerCase text with
  | Js.Normal lowerText =>
      let words := Js.split_ws lowerText in
      now <- newDate ;;
      let (cats, flaggedPhrases) :=
        scanCategories 0.2 (fallbackPatterns this) words ([], []) in
      let biasScore := overallScore cats in
      let (sev, hasBias) :=
        if Qle_bool 0.8 biasScore then ("critical", true)
        else if Qle_bool 0.6 biasScore then ("high", true)
        else if Qle_bool 0.4 biasScore then ("medium", true)
        else if Qle_bool 0.2 biasScore then ("low", true)
        else ("none", false) in
      let recs :=
        if hasBias then ["Bias detected. Consider using more inclusive language."]
        else [] in
      ret (mkAnalysis text None hasBias biasScore sev
             (Some (ByCategory cats)) (Some flaggedPhrases) (Some recs)
             (Some "fallback-pattern-matcher") now)
  | Js.Throw _ =>
      console_log "Fallback analysis error:" ;;;
      now <- newDate ;;
      ret (degraded text "Both API and fallback analysis failed" now)
  end.

End BiasAgent.

(** ** CoordinationAgent (agents/coordinationAgent.js) *)

Module CoordinationAgent.

Definition new (key : option string) : Agent :=
  mkAgent Coordination key "Qwen-3-32B"
    [ ("bot_like_behavior", ["automated"; "bot"; "script"; "program"; "algorithm"]);
      ("coordinated_campaigns", ["campaign"; "movement"; "initiative"; "drive"; "push"]);
      ("manipulation_tactics", ["astroturfing"; "brigading"; "vote manipulation"]);
      ("amplification", ["share this"; "retweet"; "repost"; "forward"; "viral"]);
      ("echo_chambers", ["echo chamber"; "bubble"; "filter"; "algorithm"]) ]
    [].

Definition fallbackAnalysis (this : Agent) (text : Js.Value) : M AnalysisRecord :=
  match Js.callToLowerCase text with
  | Js.Normal lowerText =>
      let words := Js.split_ws lowerText in
      now <- newDate ;;
      let (cats, flaggedPhrases) :=
        scanCategories 0.15 (fallbackPatterns this) words ([], []) in
      let coordinationScore := overallScore cats in
      let (sev, hasCoordination) :=
        if Qle_bool 0.8 coordinationScore then ("critical", true)
        else if Qle_bool 0.6 coordinationScore then ("high", true)
        else if Qle_bool 0.4 coordinationScore then ("medium", true)
        else if Qle_bool 0.2 coordinationScore then ("low", true)
        else ("none", false) in
      let recs :=
        if hasCoordination
        then ["Coordinated behavior detected. Monitor for inauthentic activity."]
        else [] in
      ret (mkAnalysis text None hasCoordination coordinationScore sev
             (Some (ByCategory cats)) (Some flaggedPhrases) (Some recs)
             (Some "fallback-pattern-matcher") now)
  | Js.Throw _ =>
      console_log "Fallback analysis error:" ;;;
      now <- newDate ;;
      ret (degraded text "Both API and fallback analysis failed" now)
  end.

End CoordinationAgent.

(** ** MisinformationAgent (agents/misinformationAgent.js) *)

Module MisinformationAgent.

Definition new (key : option string) : Agent :=
  mkAgent Misinformation key "Qwen-3-32B"
    [ ("conspiracy_theories", ["conspiracy"; "cover up"; "secret agenda"; "hidden truth"]);
      ("pseudoscience", ["quantum healing"; "energy crystals"; "alternative facts"]);
      ("clickbait", ["you won't believe"; "shocking truth"; "number one secret"]);
      ("sensationalism", ["breaking news"; "urgent warning"; "must see"]);
      ("unverified_claims", ["studies show"; "research proves"; "experts agree"]) ]
    [ ("geography",
       [ ("paris is in spain", mkCorrection "Paris is in France" 0.9);
         ("london is in france", mkCorrection "London is in England/UK" 0.9);
         ("tokyo is in china", mkCorrection "Tokyo is in Japan" 0.9);
         ("moscow is in ukraine", mkCorrection "Moscow is in Russia" 0.9);
         ("berlin is in austria", mkCorrection "Berlin is in Germany" 0.9) ]);
      ("science",
       [ ("earth is flat", mkCorrection "Earth is spherical" 0.95);
         ("vaccines cause autism",
          mkCorrection "No scientific evidence supports this claim" 0.9);
         ("climate change is a hoax",
          mkCorrection "Climate change is supported by scientific consensus" 0.9) ]);
      ("history",
       [ ("world war 2 ended in 1944", mkCorrection "WW2 ended in 1945" 0.9);
         ("nixon was president in 1960",
          mkCorrection "Nixon was president 1969-1974" 0.8) ]) ].

(** The variables the factual-error loop assigns. *)
Record Draft : Type := mkDraft {
  factualErrorFound : bool;
  hasMisinformation : bool;
  misinformationScore : Q;
  draftCategories : list (string * CategoryMatch);
  flaggedPhrases : list string;
  draftRecommendations : list string
}.

(** One turn of [for (const [errorPattern, correction] of Object.entries(errors))]. *)
Definition errorStep (lowerText category : string) (d : Draft)
    (entry : string * Correction) : Draft :=
  let (errorPattern, correction) := entry in
  if Js.includes lowerText errorPattern then
    mkDraft true true
      (Qmax (misinformationScore d) (fixedScore correction))
      (Js.assign (draftCategories d) category
         (mkCategoryMatch (fixedScore correction) [errorPattern] 1
            (Some (correct correction))))
      (flaggedPhrases d ++ [errorPattern])
      (draftRecommendations d ++
         [("Factual error detected: " ++ correct correction)%string])
  else d.

(** One turn of [for (const [category, errors] of Object.entries(this.factualErrors))]. *)
Definition topicStep (lowerText : string) (d : Draft)
    (entry : string * list (string * Correction)) : Draft :=
  let (category, errors) := entry in
  fold_left (errorStep lowerText category) errors d.

Definition scanFactualErrors (table : FactualTable) (lowerText : string) : Draft :=
  fold_left (topicStep lowerText) table (mkDraft false false 0 [] [] []).

Definition fallbackAnalysis (this : Agent) (text : Js.Value) : M AnalysisRecord :=
  match Js.callToLowerCase text with
  | Js.Normal lowerText =>
      let words := Js.split_ws lowerText in
      now <- newDate ;;
      let d := scanFactualErrors (factualErrors this) lowerText in
      let (cats, phrases) :=
        scanCategories 0.2 (fallbackPatterns this) words
          (draftCategories d, flaggedPhrases d) in
      let score := overallScore cats in
      let (sev, flag) :=
        if Qle_bool 0.8 score then ("critical", true)
        else if Qle_bool 0.6 score then ("high", true)
        else if Qle_bool 0.4 score then ("medium", true)
        else if Qle_bool 0.2 score then ("low", true)
        else ("none", hasMisinformation d) in
      let recs :=
        if flag then
          if negb (factualErrorFound d)
          then draftRecommendations d ++
               ["Misinformation detected. Verify claims with reliable sources."]
          else draftRecommendations d
        else draftRecommendations d in
      ret (mkAnalysis text None flag score sev
             (Some (ByCategory cats)) (Some phrases) (Some recs)
             (Some "fallback-pattern-matcher") now)
  | Js.Throw _ =>
      console_log "Fallback analysis error:" ;;;
      now <- newDate ;;
      ret (degraded text "Both API and fallback analysis failed" now)
  end.

End MisinformationAgent.

(** [this.fallbackAnalysis(text)], dispatched on the class of [this]. *)
Definition fallbackAnalysis (this : Agent) (text : Js.Value) : M AnalysisRecord :=
  match class this with
  | Toxicity => ToxicityAgent.fallbackAnalysis this text
  | Bias => BiasAgent.fallbackAnalysis this text
  | Misinformation => MisinformationAgent.fallbackAnalysis this text
  | Coordination => CoordinationAgent.fallbackAnalysis this text
  end.

(** [new XAgent()] for the class [c]. *)
Definition newAgent (c : Concern) (key : option string) : Agent :=
  match c with
  | Toxicity => ToxicityAgent.new key
  | Bias => BiasAgent.new key
  | Misinformation => MisinformationAgent.new key
  | Coordination => CoordinationAgent.new key
  end.

(** The constant each class adds per matching word. *)
Definition incrementOf (c : Concern) : Q :=
  match c with
  | Toxicity => 0.3
  | Bias => 0.2
  | Misinformation => 0.2
  | Coordination => 0.15
  end.

(** ** The remote path: parseAIResponse and analyze

    The four classes carry the same [analyze] and [parseAIResponse] up to
    the wording of prompts and log lines and the names of the three
    fields listed at [AnalysisRecord]. *)

Module Remote.

(** The six properties [parseAIResponse] reads off the parsed object,
    each possibly missing, at the types the prompt asks the model for. *)
Record Reply : Type := mkReply {
  replyFlag : option bool;
  replyScore : option Q;
  replySeverity : option string;
  replyCategories : option (list string);
  replyFlagged : option (list string);
  replyRecommendations : option (list string)
}.

(** [x || d] at the three types: false, 0 and the empty string are
    falsy, an array never is. *)
Definition orBool (x : option bool) (d : bool) : bool :=
  match x with Some true => true | _ => d end.
Definition orNumber (x : option Q) (d : Q) : Q :=
  match x with Some q => if Qeq_bool q 0 then d else q | None => d end.
Definition orString (x : option string) (d : string) : string :=
  match x with Some EmptyString => d | Some s => s | None => d end.
Definition orArray (x : option (list string)) (d : list string) : list string :=
  match x with Some l => l | None => d end.

Definition is_char (c d : ascii) : bool := Ascii.eqb c d.

(** The longest prefix of [s] that ends with a closing brace. *)
Fixpoint upToLastBrace (s : string) : option string :=
  match s with
  | EmptyString => None
  | String c r =>
      match upToLastBrace r with
      | Some p => Some (String c p)
      | None => if is_char c "}" then Some (String c EmptyString) else None
      end
  end.

(** [aiResponse.match(/\{[\s\S]*\}/)]: from the first opening brace to
    the last closing brace after it. *)
Fixpoint matchBraces (s : string) : option string :=
  match s with
  | EmptyString => None
  | String c r =>
      if is_char c "{" then
        match upToLastBrace r with
        | Some p => Some (String c p)
        | None => None
        end
      else matchBraces r
  end.

Section Parse.

(** [JSON.parse] followed by the reads of the six properties. *)
Variable JSON_parse : string -> Js.Completion Reply.

Definition parseAIResponse (this : Agent) (aiResponse : string)
    (originalText : Js.Value) : M AnalysisRecord :=
  let attempt :=
    match matchBraces aiResponse with
    | None => Js.Throw "No JSON found in AI response"
    | Some jsonMatch => JSON_parse jsonMatch
    end in
  match attempt with
  | Js.Normal parsed =>
      now <- newDate ;;
      ret (mkAnalysis originalText None
             (orBool (replyFlag parsed) false)
             (orNumber (replyScore parsed) 0)
             (orString (replySeverity parsed) "none")
             (Some (CategoryNames (orArray (replyCategories parsed) [])))
             (Some (orArray (replyFlagged parsed) []))
             (Some (orArray (replyRecommendations parsed) []))
             (Some (modelName this)) now)
  | Js.Throw _ =>
      console_log "Failed to parse AI response:" ;;;
      now <- newDate ;;
      ret (degraded originalText "Failed to parse AI response" now)
  end.

(** [!this.cerebrasApiKey] *)
Definition noKey (this : Agent) : bool :=
  match cerebrasApiKey this with
  | None | Some EmptyString => true
  | Some _ => false
  end.

(** [async analyze(text)].  The prompt and the request body do not
    influence the control flow and are left out; [fetch] stands for
    the one [await fetch(...)] of the method. *)
Definition analyze (this : Agent) (text : Js.Value) : M AnalysisRecord :=
  if noKey this then
    console_log "No Cerebras API key configured, using fallback analysis..." ;;;
    fallbackAnalysis this text
  else
    response <- fetch ;;
    match response with
    | Responded true _ (Js.Normal aiResponse) =>
        parseAIResponse this aiResponse text
    | _ =>
        console_log "Cerebras analysis error:" ;;;
        console_log "Falling back to pattern-based analysis..." ;;;
        fallbackAnalysis this text
    end.

End Parse.

End Remote.

(** ** classifyPost (classifiers/classifyPost.js) *)

Module ClassifyPost.

(** What [classifyPost] reads off the object an agent module's call
    returns: [.score] and [.flagged]. *)
Record Verdict : Type := mkVerdict {
  vscore : Q;
  vflagged : bool
}.

Record Post : Type := mkPost {
  title : string;
  content : string;
  metadataId : option string      (* [metadata.id]; [metadata] defaults to {} *)
}.

Record Analysis : Type := mkAnalysisOf {
  bias : Verdict;
  coordination : Verdict;
  misinformation : Verdict;
  toxicity : Verdict;
  advancedToxicity : Verdict
}.

Record Result : Type := mkResult {
  id : option string;
  resultTitle : string;
  trustScore : Q;
  flaggedCategories : list string;
  analysis : Analysis
}.

(** [scoreWeights] *)
Definition weightBias : Q := 0.2.
Definition weightCoordination : Q := 0.2.
Definition weightMisinformation : Q := 0.3.
Definition weightToxicity : Q := 0.15.
Definition weightAdvancedToxicity : Q := 0.15.

(** What [require] hands out for an agent module: the class named in its
    [module.exports].  A class is a function object: a property read on
    it finds the static members of the class (and what every function
    inherits from Function.prototype and Object.prototype).  The methods
    written in the class body are properties of [prototype], which only
    the objects built with [new] inherit.  A static method, where a class
    has one, is taken to map the content to what classifyPost reads off
    its result. *)
Record ClassObject : Type := mkClass {
  className : string;
  staticMethods : list (string * (string -> Js.Completion Verdict));
  prototypeMethods : list string
}.

(** [module.exports = BiasAgent] (agents/biasAgent.js). *)
Definition requireBiasAgent : ClassObject :=
  mkClass "BiasAgent" []
    ["constructor"; "analyze"; "fallbackAnalysis"; "createBiasPrompt";
     "parseAIResponse"; "getName"; "getDescription"; "isReady"; "getCapabilities"].

(** [module.exports = CoordinationAgent] (agents/coordinationAgent.js). *)
Definition requireCoordinationAgent : ClassObject :=
  mkClass "CoordinationAgent" []
    ["constructor"; "analyze"; "createCoordinationPrompt"; "parseAIResponse";
     "fallbackAnalysis"; "getName"; "getDescription"; "isReady"; "getCapabilities";
     "updatePatterns"; "updateIndicators"; "updateSeverityLevels"].

(** [module.exports = MisinformationAgent] (agents/misinformationAgent.js). *)
Definition requireMisinformationAgent : ClassObject :=
  mkClass "MisinformationAgent" []
    ["constructor"; "analyze"; "createMisinformationPrompt"; "parseAIResponse";
     "fallbackAnalysis"; "getName"; "getDescription"; "isReady"; "getCapabilities";
     "updatePatterns"; "updateRedFlags"; "updateSeverityLevels"].

(** [module.exports = ToxicityAgent] (agents/toxicityAgent.js). *)
Definition requireToxicityAgent : ClassObject :=
  mkClass "ToxicityAgent" []
    ["constructor"; "analyze"; "fallbackAnalysis"; "createToxicityPrompt";
     "parseAIResponse"; "getName"; "getDescription"; "isReady"; "getCapabilities"].

(** [module.exports = ToxicityAgentAI] (agents/toxicityAgentAI.js). *)
Definition requireToxicityAgentAI : ClassObject :=
  mkClass "ToxicityAgentAI" []
    ["constructor"; "loadModel"; "analyze"; "getSeverityLevel"; "getName";
     "getDescription"; "isReady"; "getCapabilities"].

(** The call [receiver.method(content)] on a required class, for a
    [method] that functions do not inherit (as analyze and evaluate):
    the static method of that name runs, and without one the property is
    undefined and the call raises a TypeError. *)
Definition callStatic (receiver : string) (exported : ClassObject) (method content : string)
  : Js.Completion Verdict :=
  match Js.get (staticMethods exported) method with
  | Some f => f content
  | None => Js.Throw ("TypeError: " ++ receiver ++ "." ++ method ++ " is not a function")
  end.

Section Aggregator.

(** The five modules required at the top of classifyPost.js. *)
Variables biasAgent coordinationAgent misinformationAgent
          toxicityAgent toxicityAgentAI : ClassObject.

Definition classifyPost (post : Post) : Js.Completion Result :=
  Js.andThen (callStatic "biasAgent" biasAgent "analyze" (content post))
    (fun bias =>
  Js.andThen (callStatic "coordinationAgent" coordinationAgent "analyze" (content post))
    (fun coordination =>
  Js.andThen (callStatic "misinformationAgent" misinformationAgent "analyze" (content post))
    (fun misinformation =>
  Js.andThen (callStatic "toxicityAgent" toxicityAgent "analyze" (content post))
    (fun toxicity =>
  Js.andThen (callStatic "toxicityAgentAI" toxicityAgentAI "evaluate" (content post))
    (fun advancedToxicity =>
  let trustScore :=
    1 - (vscore bias * weightBias +
         vscore coordination * weightCoordination +
         vscore misinformation * weightMisinformation +
         vscore toxicity * weightToxicity +
         vscore advancedToxicity * weightAdvancedToxicity) in
  let flags :=
    (if vflagged bias then ["Bias"] else []) ++
    (if vflagged coordination then ["Coordination"] else []) ++
    (if vflagged misinformation then ["Misinformation"] else []) ++
    (if vflagged toxicity || vflagged advancedToxicity then ["Toxicity"] else []) in
  Js.Normal
    (mkResult
       (match metadataId post with Some EmptyString => None | other => other end)
       (title post)
       (Qmax 0 (Qmin 1 (Js.toFixed2 trustScore)))
       flags
       (mkAnalysisOf bias coordination misinformation toxicity advancedToxicity))))))).

End Aggregator.

End ClassifyPost.

(** ** calculateOverallRisk (routes/classify.js) *)

(** [results.summary]: counters that [analyzeWithAgents] starts at 0 and
    increments. *)
Record Summary : Type := mkSummary {
  totalIssues : nat;
  criticalIssues : nat;
  highIssues : nat;
  mediumIssues : nat;
  lowIssues : nat
}.

Definition calculateOverallRisk (summary : Summary) : string :=
  if (0 <? criticalIssues summary)%nat then "critical"
  else if (0 <? highIssues summary)%nat then "high"
  else if (0 <? mediumIssues summary)%nat then "medium"
  else if (0 <? lowIssues summary)%nat then "low"
  else "none".

(** ** ToxicityAgentAI (agents/toxicityAgentAI.js) *)

Module ToxicityAgentAI.

Definition getSeverityLevel (score : Q) : string :=
  if Qle_bool 0.8 score then "critical"
  else if Qle_bool 0.6 score then "high"
  else if Qle_bool 0.4 score then "medium"
  else if Qle_bool 0.2 score then "low"
  else "none".

End ToxicityAgentAI.

(** ** The classification routes (routes/classify.js, server.js) *)

Module Routes.

(** [s.trim()] on ASCII text. *)
Fixpoint trimStart (s : string) : string :=
  match s with
  | EmptyString => EmptyString
  | String c r => if Js.is_space c then trimStart r else s
  end.

Fixpoint trimEnd (s : string) : string :=
  match s with
  | EmptyString => EmptyString
  | String c r =>
      match trimEnd r with
      | EmptyString => if Js.is_space c then EmptyString else String c EmptyString
      | kept => String c kept
      end
  end.

Definition trim (s : string) : string := trimEnd (trimStart s).

(** [s.split(',')] *)
Fixpoint splitComma (s : string) : list string :=
  match s with
  | EmptyString => [EmptyString]
  | String c r =>
      if Ascii.eqb c "," then EmptyString :: splitComma r
      else
        match splitComma r with
        | piece :: pieces => String c piece :: pieces
        | [] => [String c EmptyString]
        end
  end.

(** [const agents = { toxicity: new ToxicityAgent(), bias: new BiasAgent(),
    misinformation: new MisinformationAgent(), coordination: new
    CoordinationAgent() }] of server.js, with
    [process.env.CEREBRAS_API_KEY = key]. *)
Definition serverAgents (key : option string) : list (string * Agent) :=
  [ ("toxicity", ToxicityAgent.new key);
    ("bias", BiasAgent.new key);
    ("misinformation", MisinformationAgent.new key);
    ("coordination", CoordinationAgent.new key) ].

(** The properties every plain object inherits from Object.prototype. *)
Definition objectPrototypeNames : list string :=
  [ "constructor"; "__defineGetter__"; "__defineSetter__"; "hasOwnProperty";
    "__lookupGetter__"; "__lookupSetter__"; "isPrototypeOf";
    "propertyIsEnumerable"; "toString"; "valueOf"; "__proto__"; "toLocaleString" ].

(** What [availableAgents[name]] evaluates to. *)
Inductive Found : Type :=
| OwnAgent (agent : Agent)
| InheritedProperty            (* a function or object without [analyze] *)
| NoProperty.                  (* undefined *)

Definition lookupAgent (availableAgents : list (string * Agent)) (name : string) : Found :=
  match Js.get availableAgents name with
  | Some agent => OwnAgent agent
  | None =>
      if existsb (String.eqb name) objectPrototypeNames
      then InheritedProperty else NoProperty
  end.

Definition truthy (f : Found) : bool :=
  match f with
  | NoProperty => false
  | _ => true
  end.

(** The [agents] argument: a string, an array of strings, or anything
    else (absent, or of a type the function ignores). *)
Inductive Selection : Type :=
| SelectAll
| SelectString (s : string)
| SelectArray (names : list string).

(** The value of [agentsToUse] when the loop starts. *)
Definition agentsToUse (availableAgents : list (string * Agent)) (agents : Selection)
  : list string :=
  let chosen :=
    match agents with
    | SelectString EmptyString | SelectAll => map fst availableAgents
    | SelectString s => map trim (splitComma s)
    | SelectArray names => names
    end in
  filter (fun agent => truthy (lookupAgent availableAgents agent)) chosen.

(** An entry of [results.analyses]: the record of the agent, or
    [{ error, severity: 'error' }] from the catch block of the loop. *)
Inductive AnalysisEntry : Type :=
| Analysed (analysis : AnalysisRecord)
| Failed (error : string).

Record Results : Type := mkResults {
  resultText : Js.Value;
  resultTimestamp : nat;
  analyses : list (string * AnalysisEntry);
  summary : Summary;
  overallRisk : string
}.

(** The [if / else if] chain that updates [results.summary]. *)
Definition updateSummary (severity : string) (s : Summary) : Summary :=
  if String.eqb severity "critical" then
    mkSummary (S (totalIssues s)) (S (criticalIssues s)) (highIssues s)
      (mediumIssues s) (lowIssues s)
  else if String.eqb severity "high" then
    mkSummary (S (totalIssues s)) (criticalIssues s) (S (highIssues s))
      (mediumIssues s) (lowIssues s)
  else if String.eqb severity "medium" then
    mkSummary (S (totalIssues s)) (criticalIssues s) (highIssues s)
      (S (mediumIssues s)) (lowIssues s)
  else if String.eqb severity "low" then
    mkSummary (S (totalIssues s)) (criticalIssues s) (highIssues s)
      (mediumIssues s) (S (lowIssues s))
  else s.

(** [results.analyses[agentName] = entry]: the name "__proto__" sets the
    prototype of the object and adds no property of its own. *)
Definition setAnalysis (obj : list (string * AnalysisEntry)) (agentName : string)
    (entry : AnalysisEntry) : list (string * AnalysisEntry) :=
  if String.eqb agentName "__proto__" then obj else Js.assign obj agentName entry.

Section Handlers.

Variable JSON_parse : string -> Js.Completion Remote.Reply.

(** One turn of [for (const agentName of agentsToUse)]: the state is
    [(results.analyses, results.summary)].  Reading [analyze] off anything
    but an agent object raises a TypeError, which the catch block of the
    loop turns into an entry. *)
Definition runAgent (availableAgents : list (string * Agent)) (text : Js.Value)
    (st : list (string * AnalysisEntry) * Summary) (agentName : string)
  : M (list (string * AnalysisEntry) * Summary) :=
  match lookupAgent availableAgents agentName with
  | OwnAgent agent =>
      analysis <- Remote.analyze JSON_parse agent text ;;
      ret (setAnalysis (fst st) agentName (Analysed analysis),
           updateSummary (severity analysis) (snd st))
  | InheritedProperty =>
      console_log ("Error analyzing with " ++ agentName ++ ":")%string ;;;
      ret (setAnalysis (fst st) agentName (Failed "agent.analyze is not a function"),
           snd st)
  | NoProperty =>
      console_log ("Error analyzing with " ++ agentName ++ ":")%string ;;;
      ret (setAnalysis (fst st) agentName
             (Failed "Cannot read properties of undefined (reading 'analyze')"),
           snd st)
  end.

Fixpoint runAgents (availableAgents : list (string * Agent)) (text : Js.Value)
    (names : list string) (st : list (string * AnalysisEntry) * Summary)
  : M (list (string * AnalysisEntry) * Summary) :=
  match names with
  | [] => ret st
  | agentName :: more =>
      st' <- runAgent availableAgents text st agentName ;;
      runAgents availableAgents text more st'
  end.

(** [async function analyzeWithAgents(text, agents, req)] with
    [req.app.locals.agents = availableAgents]. *)
Definition analyzeWithAgents (availableAgents : list (string * Agent))
    (text : Js.Value) (agents : Selection) : M Results :=
  now <- newDate ;;
  st <- runAgents availableAgents text (agentsToUse availableAgents agents)
          ([], mkSummary 0 0 0 0 0) ;;
  ret (mkResults text now (fst st) (snd st) (calculateOverallRisk (snd st))).

End Handlers.

End Routes.

(** * Vocabulary of the properties *)

(** ** Severity and flag *)

(** The severity bucket of section 4.1 of the specification. *)
Definition severityOf (x : Q) : string :=
  if Qle_bool 0.8 x then "critical"
  else if Qle_bool 0.6 x then "high"
  else if Qle_bool 0.4 x then "medium"
  else if Qle_bool 0.2 x then "low"
  else "none".


(** ** The keyword loop *)

(** The words of [words] that contain a keyword of [keywords]. *)
Definition hits (keywords words : list string) : list string :=
  filter (Js.some_includes keywords) words.

(** A count as a number. *)
Definition ofNat (n : nat) : Q := inject_Z (Z.of_nat n).

(** What the outer loop stores for an entry of the table that matched. *)
Definition stored (increment : Q) (keywords words : list string) : CategoryMatch :=
  let (found, categoryScore) := scanWords increment keywords words in
  mkCategoryMatch (Qmin categoryScore 1) found (length found) None.

(** The categories and flagged phrases an agent holds when its keyword
    loop starts. *)
Definition initialState (this : Agent) (lowerText : string)
  : list (string * CategoryMatch) * list string :=
  match class this with
  | Misinformation =>
      let d := MisinformationAgent.scanFactualErrors (factualErrors this) lowerText in
      (MisinformationAgent.draftCategories d, MisinformationAgent.flaggedPhrases d)
  | _ => ([], [])
  end.

(** The state of the keyword loop of [this] when it ends on the text [s]. *)
Definition finalState (this : Agent) (s : string)
  : list (string * CategoryMatch) * list string :=
  scanCategories (incrementOf (class this)) (fallbackPatterns this)
    (Js.split_ws (Js.toLowerCase s)) (initialState this (Js.toLowerCase s)).

(** The score of an entry of the categories object lies between [lo] and 1. *)
Definition inRange (lo : Q) (e : string * CategoryMatch) : Prop :=
  lo <= score (snd e) /\ score (snd e) <= 1.

(** Every fixed score of a factual-error table lies between 0.2 and 1. *)
Definition correctionsInRange (table : FactualTable) : Prop :=
  Forall (fun topic =>
            Forall (fun e => 0.2 <= fixedScore (snd e) /\ fixedScore (snd e) <= 1)
                   (snd topic)) table.

(** What the factual-error loop maintains. *)
Record DraftInvariant (d : MisinformationAgent.Draft) : Prop := mkDraftInvariant {
  draft_scores : Forall (inRange 0.2) (MisinformationAgent.draftCategories d);
  draft_corrections :
    Forall (fun e => correction (snd e) <> None /\ count (snd e) = 1%nat)
           (MisinformationAgent.draftCategories d);
  draft_flag_found :
    MisinformationAgent.hasMisinformation d = MisinformationAgent.factualErrorFound d;
  draft_found_matched :
    MisinformationAgent.factualErrorFound d = true ->
    MisinformationAgent.draftCategories d <> []
}.

(** [categoryScore += increment], [n] times from 0. *)
Definition addedTimes (increment : Q) (n : nat) : Q :=
  Nat.iter n (fun categoryScore => categoryScore + increment) 0.

(** A character of the ASCII range, where [Js.toLowerCase] and
    [Js.split_ws] are the methods of JavaScript. *)
Definition isAscii (c : ascii) : bool := (nat_of_ascii c <? 128)%nat.

(** ** Texts with repeated keywords *)

(** Every character of [s] satisfies [p]. *)
Fixpoint all_chars (p : ascii -> bool) (s : string) : bool :=
  match s with
  | EmptyString => true
  | String c r => p c && all_chars p r
  end.

Definition not_space (c : ascii) : bool := negb (Js.is_space c).

(** [c] is its own lower case. *)
Definition lowered (c : ascii) : bool := Ascii.eqb (Js.lower_ascii c) c.

(** A non-empty run of white space. *)
Definition isSeparator (sep : string) : bool :=
  negb (String.eqb sep "") && all_chars Js.is_space sep.

(** A decimal digit. *)
Definition is_digit (c : ascii) : bool :=
  let n := nat_of_ascii c in (48 <=? n)%nat && (n <=? 57)%nat.

(** A property name made of digits only.  Object.entries lists the names
    that are array indices, all of which are of this kind, before the
    other names; a table without such a name is listed in the order of
    its literal. *)
Definition digitsOnly (name : string) : bool :=
  negb (String.eqb name "") && all_chars is_digit name.

(** A pattern table as an object literal gives it: distinct names, none
    of them made of digits only and none of them [__proto__], which in a
    literal names the prototype and no property. *)
Definition literalOrder (table : PatternTable) : Prop :=
  NoDup (map fst table) /\
  Forall (fun entry => digitsOnly (fst entry) = false /\ fst entry <> "__proto__") table.

(** [text + sep1 + kw + sep2 + kw + ...] *)
Fixpoint appendOccurrences (s kw : string) (seps : list string) : string :=
  match seps with
  | [] => s
  | sep :: more => appendOccurrences (s ++ sep ++ kw)%string kw more
  end.

(** ** The remote path *)

(** A record with its timestamp blanked. *)
Definition withoutTimestamp (r : AnalysisRecord) : AnalysisRecord :=
  mkAnalysis (text r) (error r) (flagged r) (aggregateScore r) (severity r)
    (categories r) (flaggedTokens r) (recommendations r) (model r) 0.

(** The remote call of [this] in the world [w] is bound to fail: the
    credential is missing, or the next fetch is rejected, or it answers
    with a status that is not a success. *)
Definition remoteFails (this : Agent) (w : World) : bool :=
  Remote.noKey this ||
  match network w with
  | [] => true
  | Rejected _ :: _ => true
  | Responded ok _ _ :: _ => negb ok
  end.



(** ** Vocabulary of the further properties *)

(** A record without its text and its timestamp. *)
Definition scoring (r : AnalysisRecord) : AnalysisRecord :=
  mkAnalysis Js.VUndefined (error r) (flagged r) (aggregateScore r) (severity r)
    (categories r) (flaggedTokens r) (recommendations r) (model r) 0.

(** The order of the severities; any other string ranks with "none". *)
Definition rank (severity : string) : nat :=
  if String.eqb severity "critical" then 4
  else if String.eqb severity "high" then 3
  else if String.eqb severity "medium" then 2
  else if String.eqb severity "low" then 1
  else 0.

(** The entries of a factual-error table whose statement occurs in the
    text, in the order of the table. *)
Definition matchedCorrections (table : FactualTable) (lowerText : string)
  : list (string * Correction) :=
  flat_map (fun topic => filter (fun e => Js.includes lowerText (fst e)) (snd topic)) table.

(** The recommendation pushed for a matched factual error. *)
Definition correctionLine (c : Correction) : string :=
  ("Factual error detected: " ++ correct c)%string.

(** The matches of all the entries of a pattern table, entry after entry. *)
Definition allHits (table : PatternTable) (words : list string) : list string :=
  flat_map (fun entry => hits (snd entry) words) table.


(** The reply holds no object that [JSON.parse] accepts. *)
Definition unparseable (JSON_parse : string -> Js.Completion Remote.Reply)
    (aiResponse : string) : bool :=
  match Remote.matchBraces aiResponse with
  | None => true
  | Some jsonMatch =>
      match JSON_parse jsonMatch with
      | Js.Throw _ => true
      | Js.Normal _ => false
      end
  end.

(** [c] is not the character [d]. *)
Definition is_not (d c : ascii) : bool := negb (Ascii.eqb c d).

(** A list holds an element. *)
Definition nonEmpty {A : Type} (l : list A) : bool := (0 <? length l)%nat.

(** The generic recommendation of the misinformation agent. *)
Definition verifyClaims : string :=
  "Misinformation detected. Verify claims with reliable sources.".


(** The entry under [name] is the fallback record of [agent], timestamp
    apart. *)
Definition isFallbackEntry (text : Js.Value) (name : string) (agent : Agent) (w0 : World)
    (obj : list (string * Routes.AnalysisEntry)) : Prop :=
  exists r : AnalysisRecord,
    Js.get obj name = Some (Routes.Analysed r) /\
    withoutTimestamp r = withoutTimestamp (fst (fallbackAnalysis agent text w0)).

(** [!process.env.CEREBRAS_API_KEY] *)
Definition keyMissing (key : option string) : bool :=
  match key with
  | None | Some EmptyString => true
  | Some _ => false
  end.

(** * Properties *)

(** ** Overall risk *)

(** C8. calculateOverallRisk depends on the four issue counts only and
    returns the highest bucket whose count is not zero, critical before
    high before medium before low, and "none" when the four counts are
    zero; the summary with 0 critical, 1 high, 2 medium and 0 low issues
    gives "high". *)
Theorem calculateOverallRisk_highest_bucket :
  forall total total' c h m l : nat,
    calculateOverallRisk (mkSummary total c h m l) =
      calculateOverallRisk (mkSummary total' c h m l) /\
    (calculateOverallRisk (mkSummary total c h m l) = "critical" <-> c <> 0%nat) /\
    (calculateOverallRisk (mkSummary total c h m l) = "high" <->
       c = 0%nat /\ h <> 0%nat) /\
    (calculateOverallRisk (mkSummary total c h m l) = "medium" <->
       c = 0%nat /\ h = 0%nat /\ m <> 0%nat) /\
    (calculateOverallRisk (mkSummary total c h m l) = "low" <->
       c = 0%nat /\ h = 0%nat /\ m = 0%nat /\ l <> 0%nat) /\
    (calculateOverallRisk (mkSummary total c h m l) = "none" <->
       c = 0%nat /\ h = 0%nat /\ m = 0%nat /\ l = 0%nat) /\
    calculateOverallRisk (mkSummary total 0 1 2 0) = "high".
Proof.
  intros total total' c h m l. unfold calculateOverallRisk. cbn [criticalIssues highIssues mediumIssues lowIssues].
  destruct c, h, m, l; cbn [Nat.ltb Nat.leb];
    repeat split; intros; try discriminate; try lia; try reflexivity;
    repeat match goal with H : _ /\ _ |- _ => destruct H end;
    try discriminate; try congruence.
Qed.

(** ** The shape of a fallback record *)

Ltac run_fallback :=
  unfold withPatterns, newAgent, ToxicityAgent.new, BiasAgent.new,
    MisinformationAgent.new, CoordinationAgent.new;
  unfold fallbackAnalysis, ToxicityAgent.fallbackAnalysis, BiasAgent.fallbackAnalysis,
    MisinformationAgent.fallbackAnalysis, CoordinationAgent.fallbackAnalysis,
    finalState, initialState, bind, ret, newDate, console_log, degraded;
  cbn [class fallbackPatterns factualErrors Js.callToLowerCase incrementOf fst snd].

Ltac split_chain x :=
  let E1 := fresh "E" in let E2 := fresh "E" in
  let E3 := fresh "E" in let E4 := fresh "E" in
  destruct (Qle_bool 0.8 x) eqn:E1; [ | destruct (Qle_bool 0.6 x) eqn:E2;
    [ | destruct (Qle_bool 0.4 x) eqn:E3; [ | destruct (Qle_bool 0.2 x) eqn:E4 ] ] ].

Lemma fallback_fields (this : Agent) (s : string) (w : World) :
  let r := fst (fallbackAnalysis this (Js.VString s) w) in
  categories r = Some (ByCategory (fst (finalState this s))) /\
  flaggedTokens r = Some (snd (finalState this s)) /\
  aggregateScore r = overallScore (fst (finalState this s)) /\
  severity r = severityOf (aggregateScore r) /\
  error r = None /\
  model r = Some "fallback-pattern-matcher" /\
  timestamp r = clock w.
Proof.
  destruct this as [c key name table facts]; destruct c; run_fallback;
    match goal with |- context [scanCategories ?i ?t ?ws ?st] =>
      destruct (scanCategories i t ws st) as [cats toks] end;
    cbn [fst snd]; unfold severityOf;
    split_chain (overallScore cats);
    cbn [fst snd categories flaggedTokens aggregateScore severity error model timestamp];
    repeat match goal with E : Qle_bool _ _ = _ |- _ => rewrite E; clear E end;
    repeat split; reflexivity.
Qed.

Lemma fallback_categoryObject (this : Agent) (s : string) (w : World) :
  categoryObject (fst (fallbackAnalysis this (Js.VString s) w)) = fst (finalState this s).
Proof.
  unfold categoryObject.
  destruct (fallback_fields this s w) as [H _]. cbv zeta in H. rewrite H. reflexivity.
Qed.

(** ** Severity *)

(** C3. On every text, for each of the four concerns and every pattern
    table, the severity of the fallback record is the same step function
    of its aggregate score: "critical" from 0.8, "high" from 0.6,
    "medium" from 0.4, "low" from 0.2 and "none" below; the score 0.65
    gives "high" and 0.15 gives "none", as on the toxicity text
    "stupid kill kill kill kill" and the coordination text "bot". *)
Theorem severity_step_function :
  forall (c : Concern) (key : option string) (table : PatternTable)
         (s : string) (w : World),
    let r := fst (fallbackAnalysis (withPatterns (newAgent c key) table) (Js.VString s) w) in
    let x := aggregateScore r in
    severity r = severityOf x /\
    (severity r = "critical" <-> 0.8 <= x) /\
    (severity r = "high" <-> 0.6 <= x /\ x < 0.8) /\
    (severity r = "medium" <-> 0.4 <= x /\ x < 0.6) /\
    (severity r = "low" <-> 0.2 <= x /\ x < 0.4) /\
    (severity r = "none" <-> x < 0.2) /\
    severityOf 0.65 = "high" /\ severityOf 0.15 = "none" /\
    (let r1 := fst (fallbackAnalysis (newAgent Toxicity key)
                      (Js.VString "stupid kill kill kill kill") w) in
     aggregateScore r1 == 0.65 /\ severity r1 = "high") /\
    (let r2 := fst (fallbackAnalysis (newAgent Coordination key) (Js.VString "bot") w) in
     aggregateScore r2 == 0.15 /\ severity r2 = "none").
Proof.
  intros c key table s w r x.
  assert (Hsev : severity r = severityOf x).
  { subst r x. apply (fallback_fields (withPatterns (newAgent c key) table) s w). }
  split; [exact Hsev|]. rewrite Hsev. clear Hsev. generalize x. clear. intro x.
  assert (D : forall a, {Qle_bool a x = true /\ a <= x} + {Qle_bool a x = false /\ x < a}).
  { intro a. destruct (Qle_bool a x) eqn:E; [left | right]; split; trivial.
    - now apply Qle_bool_iff.
    - apply Qnot_le_lt. intro L. apply Qle_bool_iff in L. congruence. }
  unfold severityOf at 1 2 3 4 5.
  destruct (D 0.8) as [[-> ?] | [-> ?]]; [ | destruct (D 0.6) as [[-> ?] | [-> ?]];
    [ | destruct (D 0.4) as [[-> ?] | [-> ?]];
      [ | destruct (D 0.2) as [[-> ?] | [-> ?]] ] ] ];
    repeat split; intros;
    repeat match goal with H : _ /\ _ |- _ => destruct H end;
    try discriminate; try reflexivity; try lra; try (vm_compute; reflexivity).
Qed.

(** ** The literal toxicity example *)

(** C5. On "you are stupid" the toxicity fallback scorer records the one
    token "stupid" under insults and nothing under any other category,
    with category score 0.3, count 1, aggregate score 0.3, severity "low"
    and the flag set. *)
Theorem you_are_stupid :
  forall (key : option string) (w : World),
    let r := fst (fallbackAnalysis (ToxicityAgent.new key) (Js.VString "you are stupid") w) in
    categories r =
      Some (ByCategory [("insults", mkCategoryMatch 0.3 ["stupid"] 1 None)]) /\
    flaggedTokens r = Some ["stupid"] /\
    aggregateScore r = 0.3 /\
    0.3 == incrementOf Toxicity /\
    severity r = "low" /\
    flagged r = true.
Proof.
  intros key w. vm_compute. repeat split; reflexivity.
Qed.

(** ** The aggregator *)

(** C1 fails on the code.  The five modules that classifyPost.js requires
    export classes without a static member; analyze is a method of their
    prototypes, and no class defines evaluate.  The first call,
    [biasAgent.analyze(content)], therefore raises a TypeError on every
    post: classifyPost returns no result and no trust score.  Each of the
    five calls is broken in the same way: classifyPost returns only on
    modules that carry the called method as a static member. *)
Theorem classifyPost_throws :
  forall post : ClassifyPost.Post,
    (ClassifyPost.classifyPost
       ClassifyPost.requireBiasAgent ClassifyPost.requireCoordinationAgent
       ClassifyPost.requireMisinformationAgent ClassifyPost.requireToxicityAgent
       ClassifyPost.requireToxicityAgentAI post =
     Js.Throw "TypeError: biasAgent.analyze is not a function") /\
    (forall (b c m t a : ClassifyPost.ClassObject) (r : ClassifyPost.Result),
        ClassifyPost.classifyPost b c m t a post = Js.Normal r ->
        Js.get (ClassifyPost.staticMethods b) "analyze" <> None /\
        Js.get (ClassifyPost.staticMethods c) "analyze" <> None /\
        Js.get (ClassifyPost.staticMethods m) "analyze" <> None /\
        Js.get (ClassifyPost.staticMethods t) "analyze" <> None /\
        Js.get (ClassifyPost.staticMethods a) "evaluate" <> None) /\
    Forall (fun exported =>
              ClassifyPost.staticMethods exported = [] /\
              In "analyze" (ClassifyPost.prototypeMethods exported) /\
              ~ In "evaluate" (ClassifyPost.prototypeMethods exported))
           [ClassifyPost.requireBiasAgent; ClassifyPost.requireCoordinationAgent;
            ClassifyPost.requireMisinformationAgent; ClassifyPost.requireToxicityAgent;
            ClassifyPost.requireToxicityAgentAI].
Proof.
  intro post. split; [reflexivity|]. split.
  - intros b c m t a r. unfold ClassifyPost.classifyPost, ClassifyPost.callStatic.
    destruct (Js.get (ClassifyPost.staticMethods b) "analyze") as [fb |];
      [| discriminate].
    destruct (fb (ClassifyPost.content post)); [| discriminate]. cbn [Js.andThen].
    destruct (Js.get (ClassifyPost.staticMethods c) "analyze") as [fc |];
      [| discriminate].
    destruct (fc (ClassifyPost.content post)); [| discriminate]. cbn [Js.andThen].
    destruct (Js.get (ClassifyPost.staticMethods m) "analyze") as [fm |];
      [| discriminate].
    destruct (fm (ClassifyPost.content post)); [| discriminate]. cbn [Js.andThen].
    destruct (Js.get (ClassifyPost.staticMethods t) "analyze") as [ft |];
      [| discriminate].
    destruct (ft (ClassifyPost.content post)); [| discriminate]. cbn [Js.andThen].
    destruct (Js.get (ClassifyPost.staticMethods a) "evaluate") as [fa |];
      [| discriminate].
    intros _. repeat split; discriminate.
  - repeat (constructor;
            [ split; [reflexivity |];
              split; [cbn; tauto |];
              cbn; intro H; repeat (destruct H as [H | H]; [discriminate H |]); exact H
            | ]).
    constructor.
Qed.

(** ** The keyword loop, characterised *)

Lemma ofNat_S (n : nat) : ofNat (S n) == ofNat n + 1.
Proof.
  unfold ofNat. rewrite Nat2Z.inj_succ. unfold Z.succ.
  rewrite inject_Z_plus. reflexivity.
Qed.

Lemma ofNat_nonneg (n : nat) : 0 <= ofNat n.
Proof.
  unfold ofNat. change 0 with (inject_Z 0). rewrite <- Zle_Qle. lia.
Qed.

Lemma ofNat_le (n m : nat) : (n <= m)%nat -> ofNat n <= ofNat m.
Proof. intro H. unfold ofNat. rewrite <- Zle_Qle. lia. Qed.

Lemma ofNat_pos (n : nat) : (0 < n)%nat -> 1 <= ofNat n.
Proof. intro H. change 1 with (ofNat 1). apply ofNat_le. lia. Qed.

Section LoopFacts.

Variable increment : Q.

Lemma wordStep_fold (keywords words : list string) (found : list string) (acc : Q) :
  let st := fold_left (wordStep increment keywords) words (found, acc) in
  fst st = found ++ hits keywords words /\
  snd st == acc + increment * ofNat (length (hits keywords words)).
Proof.
  revert found acc. induction words as [| word rest IH]; intros found acc; cbn [fold_left].
  - cbn [fst snd hits filter length]. rewrite app_nil_r. split; [reflexivity|].
    change (ofNat 0) with 0. lra.
  - assert (Hstep : wordStep increment keywords (found, acc) word =
                    if Js.some_includes keywords word
                    then (found ++ [word], acc + increment) else (found, acc))
      by reflexivity.
    rewrite Hstep. clear Hstep. unfold hits. cbn [filter]. fold (hits keywords rest).
    destruct (Js.some_includes keywords word).
    + destruct (IH (found ++ [word]) (acc + increment)) as [H1 H2].
      cbv zeta in H1, H2. split.
      * rewrite H1, <- app_assoc. reflexivity.
      * eapply Qeq_trans; [exact H2|]. cbn [length]. rewrite ofNat_S. lra.
    + apply IH.
Qed.

(** The inner loop keeps one entry per matching word and adds the
    increment once for each. *)
Lemma scanWords_hits (keywords words : list string) :
  fst (scanWords increment keywords words) = hits keywords words /\
  snd (scanWords increment keywords words) ==
    increment * ofNat (length (hits keywords words)).
Proof.
  unfold scanWords.
  destruct (wordStep_fold keywords words [] 0) as [H1 H2]. cbv zeta in H1, H2.
  split; [exact H1 | rewrite H2; lra].
Qed.

Lemma categoryStep_cases (words : list string)
    (st : list (string * CategoryMatch) * list string) (category : string)
    (keywords : list string) :
  (hits keywords words = [] /\ categoryStep increment words st (category, keywords) = st) \/
  (hits keywords words <> [] /\
   categoryStep increment words st (category, keywords) =
     (Js.assign (fst st) category (stored increment keywords words),
      snd st ++ hits keywords words)).
Proof.
  unfold categoryStep, stored.
  destruct (scanWords_hits keywords words) as [H1 _].
  destruct (scanWords increment keywords words) as [found sc]. cbn [fst] in H1. subst found.
  destruct (hits keywords words) as [| h t]; cbn [length Nat.ltb Nat.leb].
  - left. split; reflexivity.
  - right. split; [discriminate | reflexivity].
Qed.

Lemma assign_Forall {V : Type} (P : string * V -> Prop) (obj : list (string * V))
    (k : string) (v : V) :
  Forall P obj -> P (k, v) -> Forall P (Js.assign obj k v).
Proof.
  intros Hobj Hv. induction obj as [| [k' v'] r IH]; cbn [Js.assign].
  - constructor; [exact Hv | constructor].
  - inversion Hobj as [| ? ? Hhead Htail]; subst.
    destruct (String.eqb k' k) eqn:E.
    + apply String.eqb_eq in E. subst k'. constructor; assumption.
    + constructor; [assumption | apply IH; assumption].
Qed.

Lemma assign_not_nil {V : Type} (obj : list (string * V)) (k : string) (v : V) :
  Js.assign obj k v <> [].
Proof.
  destruct obj as [| [k' v'] r]; cbn [Js.assign]; [discriminate|].
  destruct (String.eqb k' k); discriminate.
Qed.

(** A property of the entries that holds when the loop starts and of
    everything the loop stores holds when it ends. *)
Lemma scanCategories_Forall (P : string * CategoryMatch -> Prop)
    (table : PatternTable) (words : list string)
    (st : list (string * CategoryMatch) * list string) :
  (forall category keywords,
      In (category, keywords) table -> hits keywords words <> [] ->
      P (category, stored increment keywords words)) ->
  Forall P (fst st) ->
  Forall P (fst (scanCategories increment table words st)).
Proof.
  unfold scanCategories. revert st.
  induction table as [| [category keywords] rest IH]; intros st Hnew Hst; cbn [fold_left].
  - exact Hst.
  - apply IH.
    + intros c k Hin. apply Hnew. now right.
    + destruct (categoryStep_cases words st category keywords) as [[_ ->] | [Hne ->]].
      * exact Hst.
      * cbn [fst]. apply assign_Forall; [exact Hst|].
        apply Hnew; [now left | exact Hne].
Qed.

Lemma scanCategories_not_nil (table : PatternTable) (words : list string)
    (st : list (string * CategoryMatch) * list string) :
  fst st <> [] -> fst (scanCategories increment table words st) <> [].
Proof.
  unfold scanCategories. revert st.
  induction table as [| [category keywords] rest IH]; intros st Hst; cbn [fold_left].
  - exact Hst.
  - apply IH.
    destruct (categoryStep_cases words st category keywords) as [[_ ->] | [_ ->]].
    + exact Hst.
    + cbn [fst]. apply assign_not_nil.
Qed.

Lemma stored_fields (keywords words : list string) :
  matches (stored increment keywords words) = hits keywords words /\
  count (stored increment keywords words) = length (hits keywords words) /\
  correction (stored increment keywords words) = None /\
  score (stored increment keywords words) ==
    Qmin (increment * ofNat (length (hits keywords words))) 1.
Proof.
  unfold stored. destruct (scanWords_hits keywords words) as [H1 H2].
  destruct (scanWords increment keywords words) as [found sc].
  cbn [fst snd] in H1, H2. subst found. cbn [matches count correction score].
  repeat split; try reflexivity.
  rewrite H2. reflexivity.
Qed.

End LoopFacts.

(** ** Bounds on the scores *)

Lemma fold_Qplus_bounds (lo : Q) (xs : list Q) (acc : Q) :
  Forall (fun x => lo <= x /\ x <= 1) xs ->
  acc + lo * ofNat (length xs) <= fold_left Qplus xs acc /\
  fold_left Qplus xs acc <= acc + ofNat (length xs).
Proof.
  revert acc. induction xs as [| x r IH]; intros acc H; cbn [fold_left length].
  - change (ofNat 0) with 0. split; lra.
  - inversion H as [| ? ? [Hlo Hhi] Hr]; subst.
    destruct (IH (acc + x) Hr) as [H1 H2]. rewrite ofNat_S. split; nra.
Qed.

(** The mean of scores between [lo] and 1 lies between [lo] and 1. *)
Lemma overallScore_bounds (lo : Q) (cats : list (string * CategoryMatch)) :
  lo <= 1 -> Forall (inRange lo) cats -> cats <> [] ->
  lo <= overallScore cats /\ overallScore cats <= 1.
Proof.
  intros Hlo Hcats Hne. unfold overallScore, Js.values, Js.sum.
  rewrite !length_map.
  destruct cats as [| e r]; [contradiction|]. clear Hne.
  remember (e :: r) as cats eqn:Ecats.
  assert (Hlen : (0 < length cats)%nat) by (subst cats; cbn; lia).
  assert (Hlt : (0 <? length cats)%nat = true) by now apply Nat.ltb_lt.
  rewrite Hlt.
  assert (Hxs : Forall (fun x => lo <= x /\ x <= 1) (map score (map snd cats))).
  { rewrite map_map. apply Forall_map. revert Hcats. apply Forall_impl.
    intros a Ha. exact Ha. }
  destruct (fold_Qplus_bounds lo _ 0 Hxs) as [H1 H2].
  rewrite !length_map in H1, H2.
  pose proof (ofNat_pos _ Hlen) as Hpos.
  fold (ofNat (length cats)).
  split.
  - apply Q.min_glb; [| exact Hlo].
    apply Qle_shift_div_l; lra.
  - apply Q.le_min_r.
Qed.

Lemma overallScore_unit (cats : list (string * CategoryMatch)) :
  Forall (inRange 0) cats -> 0 <= overallScore cats /\ overallScore cats <= 1.
Proof.
  intro H. destruct cats as [| e r].
  - unfold overallScore. cbn. split; lra.
  - apply overallScore_bounds; [lra | exact H | discriminate].
Qed.

Lemma inRange_weaken (lo lo' : Q) (e : string * CategoryMatch) :
  lo' <= lo -> inRange lo e -> inRange lo' e.
Proof. unfold inRange. intros H [H1 H2]. split; lra. Qed.

(** What the keyword loop stores scores at least one increment (or 1). *)
Lemma stored_inRange (increment : Q) (category : string) (keywords words : list string) :
  0 <= increment -> hits keywords words <> [] ->
  inRange (Qmin increment 1) (category, stored increment keywords words).
Proof.
  intros Hinc Hne. unfold inRange. cbn [snd].
  destruct (stored_fields increment keywords words) as (_ & _ & _ & Hs).
  rewrite Hs.
  assert (1 <= ofNat (length (hits keywords words))) as Hn.
  { apply ofNat_pos. destruct (hits keywords words); [contradiction | cbn; lia]. }
  split.
  - apply Q.min_glb; [| apply Q.le_min_r].
    apply Q.min_le_iff. left. nra.
  - apply Q.le_min_r.
Qed.

Lemma incrementOf_bounds (c : Concern) : 0.15 <= incrementOf c /\ incrementOf c <= 0.3.
Proof. destruct c; cbn; split; lra. Qed.

(** *** The factual-error loop *)

Lemma errorStep_invariant (lowerText category : string) (d : MisinformationAgent.Draft)
    (entry : string * Correction) :
  0.2 <= fixedScore (snd entry) /\ fixedScore (snd entry) <= 1 ->
  DraftInvariant d ->
  DraftInvariant (MisinformationAgent.errorStep lowerText category d entry).
Proof.
  intros Hentry [Hs Hc Hf Hm]. destruct entry as [errorPattern fixedBy].
  unfold MisinformationAgent.errorStep.
  destruct (Js.includes lowerText errorPattern); [| now constructor].
  constructor; cbn.
  - apply assign_Forall; [exact Hs | exact Hentry].
  - apply assign_Forall; [exact Hc | cbn; split; [discriminate | reflexivity]].
  - reflexivity.
  - intros _. apply assign_not_nil.
Qed.

Lemma scanFactualErrors_invariant (table : FactualTable) (lowerText : string) :
  correctionsInRange table ->
  DraftInvariant (MisinformationAgent.scanFactualErrors table lowerText).
Proof.
  unfold MisinformationAgent.scanFactualErrors.
  assert (Hinit : DraftInvariant (MisinformationAgent.mkDraft false false 0 [] [] [])).
  { constructor; cbn; [constructor | constructor | reflexivity | discriminate]. }
  revert Hinit. generalize (MisinformationAgent.mkDraft false false 0 [] [] []).
  induction table as [| [category errors] rest IH]; intros d Hd Htable; cbn [fold_left].
  - exact Hd.
  - inversion Htable as [| ? ? Htopic Hrest]; subst. apply IH; [| exact Hrest].
    unfold MisinformationAgent.topicStep. cbn [snd] in Htopic.
    clear IH Htable Hrest. revert d Hd.
    induction errors as [| entry more IHe]; intros d Hd; cbn [fold_left].
    + exact Hd.
    + inversion Htopic as [| ? ? Hentry Hmore]; subst.
      apply IHe; [exact Hmore|]. apply errorStep_invariant; assumption.
Qed.

Lemma shipped_corrections_in_range (c : Concern) (key : option string) (table : PatternTable) :
  correctionsInRange (factualErrors (withPatterns (newAgent c key) table)).
Proof.
  destruct c; cbn; unfold correctionsInRange;
    repeat (constructor; cbn [snd fixedScore]); lra.
Qed.

(** The entries of the categories object when the keyword loop ends score
    between 0.15 and 1. *)
Lemma finalState_inRange (this : Agent) (s : string) :
  correctionsInRange (factualErrors this) ->
  Forall (inRange 0.15) (fst (finalState this s)).
Proof.
  intro Hfacts. unfold finalState.
  apply scanCategories_Forall.
  - intros category keywords _ Hne.
    apply (inRange_weaken (Qmin (incrementOf (class this)) 1)).
    + destruct (incrementOf_bounds (class this)). apply Q.min_glb; lra.
    + apply stored_inRange; [destruct (incrementOf_bounds (class this)); lra | exact Hne].
  - unfold initialState. destruct (class this); cbn [fst]; try constructor.
    pose proof (scanFactualErrors_invariant _ (Js.toLowerCase s) Hfacts) as [Hs _ _ _].
    revert Hs. apply Forall_impl. intro e. apply inRange_weaken. lra.
Qed.

(** ** The fallback scorer never throws *)

(** C2. For each of the four concerns, every pattern table and every
    input value, string or not, the fallback scorer returns a record
    whose aggregate score lies in [0,1].  On a string it completes
    normally, without an error field; on any other value the TypeError
    raised inside is caught and the record has severity "error", the
    error message, flag off and score 0.  With the shipped tables the
    empty text and a text of blanks score 0 with severity "none". *)
Theorem fallback_never_throws :
  forall (c : Concern) (key : option string) (table : PatternTable)
         (v : Js.Value) (w : World),
    let r := fst (fallbackAnalysis (withPatterns (newAgent c key) table) v w) in
    0 <= aggregateScore r /\ aggregateScore r <= 1 /\
    match v with
    | Js.VString _ =>
        error r = None /\ model r = Some "fallback-pattern-matcher"
    | _ =>
        severity r = "error" /\
        error r = Some "Both API and fallback analysis failed" /\
        flagged r = false /\ aggregateScore r = 0
    end /\
    (let r0 := fst (fallbackAnalysis (newAgent c key) (Js.VString "") w) in
     aggregateScore r0 = 0 /\ severity r0 = "none" /\ flagged r0 = false) /\
    (let r1 := fst (fallbackAnalysis (newAgent c key) (Js.VString "   ") w) in
     aggregateScore r1 = 0 /\ severity r1 = "none" /\ flagged r1 = false).
Proof.
  intros c key table v w r.
  assert (Hex : forall t : string,
             let r0 := fst (fallbackAnalysis (newAgent c key) (Js.VString t) w) in
             t = "" \/ t = "   " ->
             aggregateScore r0 = 0 /\ severity r0 = "none" /\ flagged r0 = false).
  { intros t r0 [-> | ->]; subst r0; destruct c; vm_compute; repeat split; reflexivity. }
  assert (Hmain :
    0 <= aggregateScore r /\ aggregateScore r <= 1 /\
    match v with
    | Js.VString _ => error r = None /\ model r = Some "fallback-pattern-matcher"
    | _ => severity r = "error" /\
           error r = Some "Both API and fallback analysis failed" /\
           flagged r = false /\ aggregateScore r = 0
    end).
  { destruct v as [s | q | b | | |].
    2-6: subst r; destruct c; cbn; repeat split; try reflexivity; lra.
    pose proof (fallback_fields (withPatterns (newAgent c key) table) s w) as F.
    cbv zeta in F. destruct F as (_ & _ & Hscore & _ & Herr & Hmodel & _).
    fold r in Hscore, Herr, Hmodel. rewrite Hscore.
    assert (Hunit := overallScore_unit
                       (fst (finalState (withPatterns (newAgent c key) table) s))).
    destruct Hunit as [H0 H1].
    { generalize (finalState_inRange (withPatterns (newAgent c key) table) s
                    (shipped_corrections_in_range c key table)).
      apply Forall_impl. intro e. apply inRange_weaken. lra. }
    repeat split; assumption. }
  destruct Hmain as (H0 & H1 & Hv).
  repeat split; try assumption; try (apply Hex; auto).
Qed.

(** ** The flag and the severity *)

Lemma nonEmpty_app {A : Type} (l l' : list A) :
  nonEmpty (l ++ l') = nonEmpty l || nonEmpty l'.
Proof. destruct l; reflexivity. Qed.

(** The factual-error loop over one topic, from any draft. *)
Lemma errors_fold (lowerText category : string) (errors : list (string * Correction))
    (d : MisinformationAgent.Draft) :
  let found := filter (fun e => Js.includes lowerText (fst e)) errors in
  let d' := fold_left (MisinformationAgent.errorStep lowerText category) errors d in
  MisinformationAgent.flaggedPhrases d' =
    MisinformationAgent.flaggedPhrases d ++ map fst found /\
  MisinformationAgent.draftRecommendations d' =
    MisinformationAgent.draftRecommendations d ++
    map (fun e => correctionLine (snd e)) found /\
  MisinformationAgent.factualErrorFound d' =
    MisinformationAgent.factualErrorFound d || nonEmpty found.
Proof.
  revert d. induction errors as [| [errorPattern fixedBy] more IH]; intro d; cbn [filter fold_left fst].
  - cbn. rewrite !app_nil_r, orb_false_r. repeat split; reflexivity.
  - unfold MisinformationAgent.errorStep at 2 4 6.
    destruct (Js.includes lowerText errorPattern).
    + destruct (IH (MisinformationAgent.mkDraft true true
                      (Qmax (MisinformationAgent.misinformationScore d) (fixedScore fixedBy))
                      (Js.assign (MisinformationAgent.draftCategories d) category
                         (mkCategoryMatch (fixedScore fixedBy) [errorPattern] 1
                            (Some (correct fixedBy))))
                      (MisinformationAgent.flaggedPhrases d ++ [errorPattern])
                      (MisinformationAgent.draftRecommendations d ++
                         [("Factual error detected: " ++ correct fixedBy)%string])))
        as (H1 & H2 & H3).
      cbv zeta in H1, H2, H3. cbn [MisinformationAgent.flaggedPhrases
        MisinformationAgent.draftRecommendations MisinformationAgent.factualErrorFound]
        in H1, H2, H3.
      rewrite H1, H2, H3. cbn [map fst snd]. rewrite <- !app_assoc.
      rewrite orb_true_r. repeat split; reflexivity.
    + apply IH.
Qed.

(** The factual-error loop records the matched statements, and one
    recommendation for each, in the order of the table. *)
Lemma factual_scan_lists (table : FactualTable) (lowerText : string) :
  let d := MisinformationAgent.scanFactualErrors table lowerText in
  let found := matchedCorrections table lowerText in
  MisinformationAgent.flaggedPhrases d = map fst found /\
  MisinformationAgent.draftRecommendations d =
    map (fun e => correctionLine (snd e)) found /\
  MisinformationAgent.factualErrorFound d = nonEmpty found.
Proof.
  unfold MisinformationAgent.scanFactualErrors, matchedCorrections.
  assert (G : forall d0,
    let found := flat_map
                   (fun topic => filter (fun e => Js.includes lowerText (fst e)) (snd topic))
                   table in
    let d := fold_left (MisinformationAgent.topicStep lowerText) table d0 in
    MisinformationAgent.flaggedPhrases d =
      MisinformationAgent.flaggedPhrases d0 ++ map fst found /\
    MisinformationAgent.draftRecommendations d =
      MisinformationAgent.draftRecommendations d0 ++
      map (fun e => correctionLine (snd e)) found /\
    MisinformationAgent.factualErrorFound d =
      MisinformationAgent.factualErrorFound d0 || nonEmpty found).
  { induction table as [| [category errors] rest IH]; intro d0; cbn [flat_map fold_left snd].
    - cbn. rewrite !app_nil_r, orb_false_r. repeat split; reflexivity.
    - unfold MisinformationAgent.topicStep at 2 4 6.
      destruct (errors_fold lowerText category errors d0) as (E1 & E2 & E3).
      destruct (IH (fold_left (MisinformationAgent.errorStep lowerText category) errors d0))
        as (H1 & H2 & H3).
      cbv zeta in E1, E2, E3, H1, H2, H3.
      rewrite H1, H2, H3, E1, E2, E3.
      rewrite !map_app, <- !app_assoc, nonEmpty_app, orb_assoc.
      repeat split; reflexivity. }
  apply (G (MisinformationAgent.mkDraft false false 0 [] [] [])).
Qed.

(** On a string the flag of a fallback record is set when the severity is
    not "none" and, in the misinformation scorer, when a statement of the
    factual-error table occurs in the text; it is set in no other case. *)
Lemma fallback_flag_cases (c : Concern) (key : option string) (table : PatternTable)
    (s : string) (w : World) :
  let agent := withPatterns (newAgent c key) table in
  let r := fst (fallbackAnalysis agent (Js.VString s) w) in
  flagged r =
    negb (String.eqb (severity r) "none") ||
    nonEmpty (matchedCorrections (factualErrors agent) (Js.toLowerCase s)).
Proof.
  destruct c.
  1, 2, 4: run_fallback;
    match goal with |- context [scanCategories ?i ?t ?ws ?st] =>
      destruct (scanCategories i t ws st) as [cats toks] end;
    split_chain (overallScore cats); reflexivity.
  pose proof (scanFactualErrors_invariant _ (Js.toLowerCase s)
                (shipped_corrections_in_range Misinformation key table)) as [_ _ Hflag _].
  destruct (factual_scan_lists
              (factualErrors (withPatterns (newAgent Misinformation key) table))
              (Js.toLowerCase s)) as (_ & _ & Hfound).
  cbv zeta in Hfound |- *. rewrite <- Hfound, <- Hflag. clear Hfound Hflag.
  run_fallback. unfold scanCategories.
  match goal with |- context [fold_left ?f ?t ?st] =>
    destruct (fold_left f t st) as [cats toks] end.
  split_chain (overallScore cats); cbn [fst flagged severity];
    match goal with |- context [MisinformationAgent.hasMisinformation ?d] =>
      destruct (MisinformationAgent.hasMisinformation d) end; reflexivity.
Qed.

(** The toxicity, bias and coordination scorers hold no factual-error
    table. *)
Lemma no_factual_table (c : Concern) (key : option string) (table : PatternTable) :
  c <> Misinformation ->
  factualErrors (withPatterns (newAgent c key) table) = [].
Proof. destruct c; intro H; [reflexivity | reflexivity | contradiction | reflexivity]. Qed.



(** ** The factual-error override *)

(** C4 at the inputs where the code departs from it.  The text
    "Nixon was president in 1960, a conspiracy" contains the phrase bound
    to 0.8 and one conspiracy keyword: the record is flagged and carries
    the correction alone, but its score is the mean 0.5 of the two
    category scores.  The text "the earth is flat and vaccines cause
    autism" contains the phrase bound to 0.95 and scores 0.9.  On
    "Paris is in Spain" no other category is present and the score is the
    0.9 of the phrase. *)
Theorem factual_score_replaced_by_mean :
  forall (key : option string) (w : World),
    let agent := newAgent Misinformation key in
    let r := fst (fallbackAnalysis agent
                    (Js.VString "Nixon was president in 1960, a conspiracy") w) in
    let r' := fst (fallbackAnalysis agent
                     (Js.VString "the earth is flat and vaccines cause autism") w) in
    let p := fst (fallbackAnalysis agent (Js.VString "Paris is in Spain") w) in
    (Js.includes (Js.toLowerCase "Nixon was president in 1960, a conspiracy")
       "nixon was president in 1960" = true /\
     flagged r = true /\ aggregateScore r == 0.5 /\ aggregateScore r < 0.8 /\
     recommendations r = Some ["Factual error detected: Nixon was president 1969-1974"]) /\
    (Js.includes (Js.toLowerCase "the earth is flat and vaccines cause autism")
       "earth is flat" = true /\
     flagged r' = true /\ aggregateScore r' == 0.9 /\ aggregateScore r' < 0.95) /\
    (flagged p = true /\ aggregateScore p == 0.9 /\
     recommendations p = Some ["Factual error detected: Paris is in France"]).
Proof.
  intros key w. vm_compute. repeat split; reflexivity.
Qed.

(** ** Repeating a matched keyword *)

Section StringFacts.

Lemma prefix_all_chars (p : ascii -> bool) (k w : string) :
  String.prefix k w = true -> all_chars p w = true -> all_chars p k = true.
Proof.
  revert w. induction k as [| a k IH]; intros w Hpre Hw; [reflexivity|].
  destruct w as [| b w]; cbn in Hpre; [discriminate|].
  destruct (ascii_dec a b) as [-> |]; [| discriminate].
  cbn in Hw |- *. apply andb_true_iff in Hw. destruct Hw as [Hb Hw].
  rewrite Hb. cbn. eapply IH; eassumption.
Qed.

Lemma includes_all_chars (p : ascii -> bool) (w k : string) :
  Js.includes w k = true -> all_chars p w = true -> all_chars p k = true.
Proof.
  induction w as [| b w IH]; cbn [Js.includes]; intros Hinc Hw.
  - rewrite orb_false_r in Hinc. eapply prefix_all_chars; eassumption.
  - apply orb_true_iff in Hinc. destruct Hinc as [Hpre | Hrest].
    + eapply prefix_all_chars; eassumption.
    + apply IH; [exact Hrest|]. cbn in Hw. apply andb_true_iff in Hw. apply Hw.
Qed.

(** The pieces of a split hold no white space, and only characters of
    the string that was split. *)
Lemma split_ws_pieces (p : ascii -> bool) (s : string) :
  all_chars p s = true ->
  Forall (fun t => all_chars p t = true /\ all_chars not_space t = true) (Js.split_ws s).
Proof.
  induction s as [| c r IH]; cbn [Js.split_ws all_chars]; intro Hs.
  - constructor; [split; reflexivity | constructor].
  - apply andb_true_iff in Hs. destruct Hs as [Hc Hr]. specialize (IH Hr).
    destruct (Js.is_space c) eqn:Ec.
    + destruct (Js.starts_with_space r); [exact IH|].
      constructor; [split; reflexivity | exact IH].
    + destruct (Js.split_ws r) as [| piece pieces].
      * constructor; [| constructor]. cbn. unfold not_space. rewrite Hc, Ec. split; reflexivity.
      * inversion IH as [| ? ? [H1 H2] Hrest]; subst.
        constructor; [| exact Hrest]. cbn. unfold not_space at 1.
        rewrite Hc, Ec, H1, H2. split; reflexivity.
Qed.

Lemma lower_ascii_idem (c : ascii) : lowered (Js.lower_ascii c) = true.
Proof. destruct c as [[] [] [] [] [] [] [] []]; reflexivity. Qed.

Lemma lower_ascii_space (c : ascii) : Js.is_space (Js.lower_ascii c) = Js.is_space c.
Proof. destruct c as [[] [] [] [] [] [] [] []]; reflexivity. Qed.

Lemma toLowerCase_lowered (s : string) : all_chars lowered (Js.toLowerCase s) = true.
Proof.
  induction s as [| c r IH]; cbn; [reflexivity|].
  rewrite lower_ascii_idem, IH. reflexivity.
Qed.

Lemma toLowerCase_fixed (k : string) :
  all_chars lowered k = true -> Js.toLowerCase k = k.
Proof.
  induction k as [| c r IH]; cbn; intro H; [reflexivity|].
  apply andb_true_iff in H. destruct H as [Hc Hr].
  unfold lowered in Hc. apply Ascii.eqb_eq in Hc. rewrite Hc, (IH Hr). reflexivity.
Qed.

Lemma toLowerCase_app (a b : string) :
  Js.toLowerCase (a ++ b) = (Js.toLowerCase a ++ Js.toLowerCase b)%string.
Proof. induction a as [| c r IH]; cbn; [reflexivity | rewrite IH; reflexivity]. Qed.

Lemma toLowerCase_separator (sep : string) :
  isSeparator sep = true -> isSeparator (Js.toLowerCase sep) = true.
Proof.
  unfold isSeparator. intro H. apply andb_true_iff in H. destruct H as [Hne Hws].
  destruct sep as [| c r]; [discriminate|]. cbn [Js.toLowerCase String.eqb negb andb].
  clear Hne. revert c Hws. induction r as [| d r IH]; intros c Hws; cbn in Hws |- *.
  - rewrite lower_ascii_space. exact Hws.
  - apply andb_true_iff in Hws. destruct Hws as [Hc Hr].
    rewrite lower_ascii_space, Hc. apply (IH d Hr).
Qed.

Lemma split_ws_word (b : string) :
  all_chars not_space b = true -> Js.split_ws b = [b].
Proof.
  induction b as [| c r IH]; cbn [all_chars Js.split_ws]; intro H; [reflexivity|].
  apply andb_true_iff in H. destruct H as [Hc Hr]. unfold not_space in Hc.
  apply negb_true_iff in Hc. rewrite Hc, (IH Hr). reflexivity.
Qed.

Lemma starts_with_space_app (sep rest : string) :
  isSeparator sep = true -> Js.starts_with_space (sep ++ rest) = true.
Proof.
  unfold isSeparator. destruct sep as [| c r]; [discriminate|]. cbn.
  intro H. apply andb_true_iff in H. apply H.
Qed.

Lemma starts_with_space_word (b : string) :
  all_chars not_space b = true -> Js.starts_with_space b = false.
Proof.
  destruct b as [| c r]; cbn; [reflexivity|]. intro H.
  apply andb_true_iff in H. destruct H as [Hc _]. unfold not_space in Hc.
  now apply negb_true_iff in Hc.
Qed.

Lemma split_ws_sep_word (sep b : string) :
  isSeparator sep = true -> all_chars not_space b = true ->
  Js.split_ws (sep ++ b) = [EmptyString; b].
Proof.
  intros Hsep Hb. unfold isSeparator in Hsep.
  destruct sep as [| c r]; [discriminate|]. cbn [String.eqb negb andb] in Hsep.
  revert c Hsep. induction r as [| d r IH]; intros c Hsep; cbn in Hsep.
  - rewrite andb_true_r in Hsep. cbn [append Js.split_ws]. rewrite Hsep.
    rewrite (starts_with_space_word b Hb), (split_ws_word b Hb). reflexivity.
  - apply andb_true_iff in Hsep. destruct Hsep as [Hc Hr].
    change (String c (String d r) ++ b)%string with (String c (String d r ++ b)).
    cbn [Js.split_ws]. rewrite Hc.
    assert (Hd : Js.is_space d = true) by (apply andb_true_iff in Hr; apply Hr).
    cbn [append Js.starts_with_space]. rewrite Hd.
    apply (IH d Hr).
Qed.

(** Appending a separator and a word to [a] keeps the pieces of [a],
    except a trailing empty piece, and adds the word as the last piece. *)
Lemma split_ws_append (a sep b : string) :
  isSeparator sep = true -> all_chars not_space b = true ->
  exists pre : list string,
    pre <> [] /\
    Js.split_ws (a ++ sep ++ b) = pre ++ [b] /\
    (Js.split_ws a = pre \/ Js.split_ws a = pre ++ [EmptyString]).
Proof.
  intros Hsep Hb. induction a as [| c r IH].
  - exists [EmptyString]. split; [discriminate|]. split.
    + cbn [append]. apply split_ws_sep_word; assumption.
    + left. reflexivity.
  - destruct IH as (pre & Hne & Hfull & Hold).
    change (String c r ++ sep ++ b)%string with (String c (r ++ sep ++ b)).
    cbn [Js.split_ws]. destruct (Js.is_space c) eqn:Ec.
    + assert (Hstart : Js.starts_with_space (r ++ sep ++ b) =
                       match r with EmptyString => true | _ => Js.starts_with_space r end).
      { destruct r; [cbn [append]; apply starts_with_space_app; exact Hsep | reflexivity]. }
      rewrite Hstart. destruct r as [| d r'].
      * exists [EmptyString]. split; [discriminate|]. split.
        -- cbn [append]. apply split_ws_sep_word; assumption.
        -- right. reflexivity.
      * destruct (Js.starts_with_space (String d r')).
        -- exists pre. repeat split; assumption.
        -- exists (EmptyString :: pre). split; [discriminate|]. split.
           ++ rewrite Hfull. reflexivity.
           ++ destruct Hold as [-> | ->]; [left | right]; reflexivity.
    + rewrite Hfull. destruct pre as [| piece pieces]; [contradiction|].
      exists (String c piece :: pieces). split; [discriminate|]. split.
      * reflexivity.
      * destruct Hold as [-> | ->]; [left | right]; reflexivity.
Qed.

End StringFacts.

Section Monotonicity.

Lemma includes_empty (w : string) : Js.includes w "" = true.
Proof. destruct w; reflexivity. Qed.

(** A category that matches the empty word matches every word. *)
Lemma some_includes_empty_word (keywords : list string) (word : string) :
  Js.some_includes keywords "" = true -> Js.some_includes keywords word = true.
Proof.
  unfold Js.some_includes. intro H. apply existsb_exists in H.
  destruct H as (k & Hin & Hk). apply existsb_exists. exists k. split; [exact Hin|].
  destruct k as [| a k]; [apply includes_empty | discriminate].
Qed.

(** A string found inside a word of the lower-cased text holds no white
    space and no capital letter. *)
Lemma matched_keyword_shape (s kw : string) :
  Exists (fun word => Js.includes word kw = true) (Js.split_ws (Js.toLowerCase s)) ->
  all_chars not_space kw = true /\ all_chars lowered kw = true.
Proof.
  intro Hex. apply Exists_exists in Hex. destruct Hex as (word & Hin & Hinc).
  pose proof (split_ws_pieces lowered _ (toLowerCase_lowered s)) as Hall.
  rewrite Forall_forall in Hall. destruct (Hall word Hin) as [Hlow Hns].
  split; eapply includes_all_chars; eassumption.
Qed.

Lemma matched_hits (keywords : list string) (words : list string) :
  Exists (fun word => Js.some_includes keywords word = true) words ->
  hits keywords words <> [].
Proof.
  intro Hex. apply Exists_exists in Hex. destruct Hex as (word & Hin & Hinc).
  assert (Hhit : In word (hits keywords words)).
  { unfold hits. apply filter_In. split; assumption. }
  intro Hnil. rewrite Hnil in Hhit. exact Hhit.
Qed.

(** One more occurrence: the words of the text stay, except an empty last
    word, and the occurrence becomes the last word; no keyword list loses
    a match. *)
Lemma hits_grow (keywords : list string) (s sep kw : string) :
  isSeparator sep = true ->
  all_chars not_space kw = true -> all_chars lowered kw = true ->
  (length (hits keywords (Js.split_ws (Js.toLowerCase s))) <=
   length (hits keywords (Js.split_ws (Js.toLowerCase (s ++ sep ++ kw)))))%nat.
Proof.
  intros Hsep Hns Hlow.
  rewrite !toLowerCase_app, (toLowerCase_fixed kw Hlow).
  destruct (split_ws_append (Js.toLowerCase s) (Js.toLowerCase sep) kw
              (toLowerCase_separator sep Hsep) Hns) as (pre & _ & Hfull & Hold).
  rewrite Hfull. unfold hits. rewrite filter_app, length_app.
  destruct Hold as [-> | ->]; [lia|].
  rewrite filter_app, length_app. cbn [filter].
  destruct (Js.some_includes keywords "") eqn:Hempty; cbn [length]; [| lia].
  rewrite (some_includes_empty_word keywords kw Hempty). cbn [length]. lia.
Qed.

Lemma hits_grow_many (keywords : list string) (kw : string) (seps : list string) :
  all_chars not_space kw = true -> all_chars lowered kw = true ->
  Forall (fun sep => isSeparator sep = true) seps ->
  forall s : string,
    (length (hits keywords (Js.split_ws (Js.toLowerCase s))) <=
     length (hits keywords
               (Js.split_ws (Js.toLowerCase (appendOccurrences s kw seps)))))%nat.
Proof.
  intros Hns Hlow Hseps. induction Hseps as [| sep more Hsep _ IH]; intro s.
  - cbn [appendOccurrences]. lia.
  - cbn [appendOccurrences].
    pose proof (hits_grow keywords s sep kw Hsep Hns Hlow) as Hle.
    specialize (IH (s ++ sep ++ kw)%string). lia.
Qed.

Lemma get_assign_same {V : Type} (obj : list (string * V)) (k : string) (v : V) :
  Js.get (Js.assign obj k v) k = Some v.
Proof.
  induction obj as [| [k' v'] r IH]; cbn [Js.assign Js.get].
  - rewrite String.eqb_refl. reflexivity.
  - destruct (String.eqb k' k) eqn:E; cbn [Js.get]; rewrite E; [reflexivity | exact IH].
Qed.

Lemma get_assign_other {V : Type} (obj : list (string * V)) (k k' : string) (v : V) :
  k <> k' -> Js.get (Js.assign obj k v) k' = Js.get obj k'.
Proof.
  intro Hne. induction obj as [| [k0 v0] r IH]; cbn [Js.assign Js.get].
  - apply String.eqb_neq in Hne. rewrite Hne. reflexivity.
  - destruct (String.eqb k0 k) eqn:E; cbn [Js.get].
    + apply String.eqb_eq in E. subst k0.
      apply String.eqb_neq in Hne. rewrite Hne. reflexivity.
    + rewrite IH. reflexivity.
Qed.

Variable increment : Q.

Lemma scanCategories_get_other (table : PatternTable) (words : list string)
    (st : list (string * CategoryMatch) * list string) (category : string) :
  ~ In category (map fst table) ->
  Js.get (fst (scanCategories increment table words st)) category =
    Js.get (fst st) category.
Proof.
  unfold scanCategories. revert st.
  induction table as [| [c0 k0] rest IH]; intros st Hnot; cbn [fold_left]; [reflexivity|].
  cbn [map fst In] in Hnot. rewrite IH by tauto.
  destruct (categoryStep_cases increment words st c0 k0) as [[_ ->] | [_ ->]];
    [reflexivity|].
  cbn [fst]. apply get_assign_other. tauto.
Qed.

(** With distinct category names, the entry under the name of a matched
    table entry is the one the loop stored for it. *)
Lemma scanCategories_get (table : PatternTable) (words : list string)
    (st : list (string * CategoryMatch) * list string)
    (category : string) (keywords : list string) :
  NoDup (map fst table) -> In (category, keywords) table ->
  hits keywords words <> [] ->
  Js.get (fst (scanCategories increment table words st)) category =
    Some (stored increment keywords words).
Proof.
  unfold scanCategories. revert st.
  induction table as [| [c0 k0] rest IH]; intros st Hnd Hin Hne; [contradiction|].
  cbn [map fst] in Hnd. inversion Hnd as [| ? ? Hfresh Hrest]; subst.
  cbn [fold_left]. destruct Hin as [Heq | Hin].
  - inversion Heq; subst c0 k0.
    change (fold_left (categoryStep increment words) rest ?x)
      with (scanCategories increment rest words x).
    rewrite scanCategories_get_other by exact Hfresh.
    destruct (categoryStep_cases increment words st category keywords)
      as [[Hnil _] | [_ ->]]; [contradiction|].
    cbn [fst]. apply get_assign_same.
  - apply IH; assumption.
Qed.

End Monotonicity.

(** C9. Take one of the four concerns, a pattern table with distinct
    category names, a category of it that the text matches, and a string
    that some word of the lower-cased text contains, as every keyword
    matched in the text does.  Appending any number of further
    occurrences of that string, each after a non-empty run of white
    space, leaves the category in the record with a score and a count at
    least as large as before; the score stays at most 1. *)
Theorem repeated_keyword_monotone :
  forall (c : Concern) (key : option string) (table : PatternTable)
         (s category : string) (keywords : list string) (kw : string)
         (seps : list string) (w w' : World),
    NoDup (map fst table) ->
    In (category, keywords) table ->
    Exists (fun word => Js.some_includes keywords word = true)
           (Js.split_ws (Js.toLowerCase s)) ->
    Exists (fun word => Js.includes word kw = true) (Js.split_ws (Js.toLowerCase s)) ->
    Forall (fun sep => isSeparator sep = true) seps ->
    let agent := withPatterns (newAgent c key) table in
    let r := fst (fallbackAnalysis agent (Js.VString s) w) in
    let r' := fst (fallbackAnalysis agent (Js.VString (appendOccurrences s kw seps)) w') in
    exists cm cm' : CategoryMatch,
      Js.get (categoryObject r) category = Some cm /\
      Js.get (categoryObject r') category = Some cm' /\
      score cm <= score cm' /\ score cm' <= 1 /\
      (1 <= count cm <= count cm')%nat.
Proof.
  intros c key table s category keywords kw seps w w' Hnd Hin Hcat Hex Hseps agent r r'.
  destruct (matched_keyword_shape s kw Hex) as [Hns Hlow].
  pose proof (matched_hits keywords _ Hcat) as Hne.
  pose proof (hits_grow_many keywords kw seps Hns Hlow Hseps s) as Hle.
  assert (Hc : class agent = c) by (destruct c; reflexivity).
  assert (Ht : fallbackPatterns agent = table) by (destruct c; reflexivity).
  set (words := Js.split_ws (Js.toLowerCase s)) in *.
  set (words' := Js.split_ws (Js.toLowerCase (appendOccurrences s kw seps))) in *.
  assert (Hne' : hits keywords words' <> []).
  { intro Hnil. rewrite Hnil in Hle. destruct (hits keywords words); [contradiction|].
    cbn in Hle. lia. }
  exists (stored (incrementOf c) keywords words),
         (stored (incrementOf c) keywords words').
  subst r r'. rewrite !fallback_categoryObject. unfold finalState. rewrite Hc, Ht.
  fold words words'.
  split; [apply scanCategories_get; assumption|].
  split; [apply scanCategories_get; assumption|].
  destruct (stored_fields (incrementOf c) keywords words) as (_ & Hn & _ & Hs).
  destruct (stored_fields (incrementOf c) keywords words') as (_ & Hn' & _ & Hs').
  rewrite Hs, Hs', Hn, Hn'.
  destruct (incrementOf_bounds c) as [Hinc _].
  pose proof (ofNat_le _ _ Hle) as Hq.
  pose proof (ofNat_nonneg (length (hits keywords words))) as Hq0.
  repeat split.
  - apply Q.min_glb; [| apply Q.le_min_r].
    apply Q.min_le_iff. left. nra.
  - apply Q.le_min_r.
  - destruct (hits keywords words); [contradiction | cbn; lia].
  - exact Hle.
Qed.

(** The theorem at the toxicity scorer, a two-category table and the text
    "You are STUPID " followed by two further occurrences of "stupid". *)
Lemma repeated_keyword_monotone_witness :
  exists cm cm' : CategoryMatch,
    Js.get (categoryObject
              (fst (fallbackAnalysis
                      (withPatterns (newAgent Toxicity None)
                         [("insults", ["stupid"; "idiot"]); ("profanity", ["hell"])])
                      (Js.VString "You are STUPID ")
                      (mkWorld 0 [] [] 0)))) "insults" = Some cm /\
    Js.get (categoryObject
              (fst (fallbackAnalysis
                      (withPatterns (newAgent Toxicity None)
                         [("insults", ["stupid"; "idiot"]); ("profanity", ["hell"])])
                      (Js.VString (appendOccurrences "You are STUPID " "stupid" [" "; "  "]))
                      (mkWorld 5 [] [] 0)))) "insults" = Some cm' /\
    score cm <= score cm' /\ score cm' <= 1 /\
    (1 <= count cm <= count cm')%nat.
Proof.
  apply (repeated_keyword_monotone Toxicity None
           [("insults", ["stupid"; "idiot"]); ("profanity", ["hell"])]
           "You are STUPID " "insults" ["stupid"; "idiot"] "stupid" [" "; "  "]
           (mkWorld 0 [] [] 0) (mkWorld 5 [] [] 0)).
  - cbn. constructor; [| constructor; [| constructor]]; cbn; intuition discriminate.
  - cbn. left. reflexivity.
  - apply Exists_exists. exists "stupid". split; [| reflexivity].
    vm_compute. right. right. left. reflexivity.
  - apply Exists_exists. exists "stupid". split; [| reflexivity].
    vm_compute. right. right. left. reflexivity.
  - constructor; [reflexivity | constructor; [reflexivity | constructor]].
Defined.

(** ** One increment per matching token *)

(** The inner loop adds the increment once for each matching word. *)
Lemma wordStep_iter (increment : Q) (keywords words : list string)
    (found : list string) (acc : Q) :
  snd (fold_left (wordStep increment keywords) words (found, acc)) =
    Nat.iter (length (hits keywords words)) (fun categoryScore => categoryScore + increment) acc.
Proof.
  revert found acc. induction words as [| word rest IH]; intros found acc;
    cbn [fold_left]; [reflexivity|].
  assert (Hstep : wordStep increment keywords (found, acc) word =
                  if Js.some_includes keywords word
                  then (found ++ [word], acc + increment) else (found, acc))
    by reflexivity.
  rewrite Hstep. clear Hstep. unfold hits. cbn [filter]. fold (hits keywords rest).
  destruct (Js.some_includes keywords word).
  - rewrite IH. cbn [length]. rewrite Nat.iter_succ_r. reflexivity.
  - apply IH.
Qed.

(** What the outer loop stores for a table entry, field by field. *)
Lemma stored_exact (increment : Q) (keywords words : list string) :
  stored increment keywords words =
    mkCategoryMatch (Qmin (addedTimes increment (length (hits keywords words))) 1)
      (hits keywords words) (length (hits keywords words)) None.
Proof.
  unfold stored, addedTimes.
  destruct (scanWords_hits increment keywords words) as [H1 _].
  pose proof (wordStep_iter increment keywords words [] 0) as H2.
  fold (scanWords increment keywords words) in H2.
  destruct (scanWords increment keywords words) as [found sc].
  cbn [fst snd] in H1, H2. subst found sc. reflexivity.
Qed.

(** With distinct category names, a table entry that no word matches
    leaves the property of its name as the loop found it. *)
Lemma scanCategories_get_unmatched (increment : Q) (table : PatternTable)
    (words : list string) (st : list (string * CategoryMatch) * list string)
    (category : string) (keywords : list string) :
  NoDup (map fst table) -> In (category, keywords) table ->
  hits keywords words = [] ->
  Js.get (fst (scanCategories increment table words st)) category =
    Js.get (fst st) category.
Proof.
  unfold scanCategories. revert st.
  induction table as [| [c0 k0] rest IH]; intros st Hnd Hin Hnil; [contradiction|].
  cbn [map fst] in Hnd. inversion Hnd as [| ? ? Hfresh Hrest]; subst.
  cbn [fold_left]. destruct Hin as [Heq | Hin].
  - inversion Heq; subst c0 k0.
    change (fold_left (categoryStep increment words) rest ?x)
      with (scanCategories increment rest words x).
    rewrite scanCategories_get_other by exact Hfresh.
    destruct (categoryStep_cases increment words st category keywords)
      as [[_ ->] | [Hne _]]; [reflexivity | contradiction].
  - rewrite (IH _ Hrest Hin Hnil).
    destruct (categoryStep_cases increment words st c0 k0) as [[_ ->] | [_ ->]];
      [reflexivity|].
    cbn [fst]. apply get_assign_other. intro E. subst c0.
    apply Hfresh. apply in_map_iff. exists (category, keywords). split; [reflexivity | exact Hin].
Qed.

(** C10. Take one of the four fallback scorers, an ASCII text, a pattern
    table as an object literal gives it (distinct category names, none
    made of digits only, none [__proto__]) and an entry of it.  The matching
    tokens of the entry are the words of the lower-cased text that
    contain at least one of its keywords, each word once for each of its
    occurrences in the text, however many keywords it contains.  When
    there is a matching token, the categories object holds under the name
    of the entry exactly: the list of the matching tokens, its length as
    the count, and as the score the increment added once per matching
    token, capped at 1.  When there is none, the loop stores nothing
    under that name (only the factual-error loop of the misinformation
    scorer may have, with a correction and count 1).  The token
    "stupididiot" contains two insult keywords and counts once. *)
Theorem one_increment_per_token :
  forall (c : Concern) (key : option string) (table : PatternTable)
         (s : string) (w : World) (category : string) (keywords : list string),
    all_chars isAscii s = true ->
    literalOrder table ->
    In (category, keywords) table ->
    let r := fst (fallbackAnalysis (withPatterns (newAgent c key) table) (Js.VString s) w) in
    let words := Js.split_ws (Js.toLowerCase s) in
    let found := filter (fun word => existsb (fun keyword => Js.includes word keyword) keywords)
                        words in
    (found <> [] ->
     Js.get (categoryObject r) category =
       Some (mkCategoryMatch (Qmin (addedTimes (incrementOf c) (length found)) 1)
               found (length found) None)) /\
    (found = [] ->
     (c <> Misinformation -> Js.get (categoryObject r) category = None) /\
     (forall e, Js.get (categoryObject r) category = Some e ->
                correction e <> None /\ count e = 1%nat)) /\
    (length found <= length words)%nat /\
    (Js.includes "stupididiot" "stupid" = true /\
     Js.includes "stupididiot" "idiot" = true /\
     categories (fst (fallbackAnalysis (newAgent Toxicity key) (Js.VString "stupididiot") w)) =
       Some (ByCategory [("insults", mkCategoryMatch 0.3 ["stupididiot"] 1 None)])).
Proof.
  intros c key table s w category keywords _ [Hnd _] Hin r words found.
  change found with (hits keywords words).
  assert (Hc : class (withPatterns (newAgent c key) table) = c) by (destruct c; reflexivity).
  assert (Ht : fallbackPatterns (withPatterns (newAgent c key) table) = table)
    by (destruct c; reflexivity).
  assert (Hobj : categoryObject r =
                 fst (scanCategories (incrementOf c) table words
                        (initialState (withPatterns (newAgent c key) table)
                           (Js.toLowerCase s)))).
  { subst r. rewrite fallback_categoryObject. unfold finalState. rewrite Hc, Ht. reflexivity. }
  split; [| split; [| split]].
  - intro Hne. rewrite Hobj.
    rewrite (scanCategories_get (incrementOf c) table words _ category keywords Hnd Hin Hne).
    rewrite stored_exact. reflexivity.
  - intro Hnil. rewrite Hobj.
    rewrite (scanCategories_get_unmatched (incrementOf c) table words _ category keywords
               Hnd Hin Hnil).
    unfold initialState. rewrite Hc. split.
    + intro Hm. destruct c; try reflexivity. contradiction.
    + intros e He. destruct c; cbn [fst Js.get] in He; try discriminate.
      pose proof (scanFactualErrors_invariant _ (Js.toLowerCase s)
                    (shipped_corrections_in_range Misinformation key table))
        as [_ Hcorr _ _].
      rewrite Forall_forall in Hcorr.
      assert (Hmem : exists name, In (name, e)
                (MisinformationAgent.draftCategories
                   (MisinformationAgent.scanFactualErrors
                      (factualErrors (withPatterns (newAgent Misinformation key) table))
                      (Js.toLowerCase s)))).
      { revert He. generalize (MisinformationAgent.draftCategories
                   (MisinformationAgent.scanFactualErrors
                      (factualErrors (withPatterns (newAgent Misinformation key) table))
                      (Js.toLowerCase s))).
        intro obj. induction obj as [| [k0 v0] rest IH]; cbn [Js.get]; [discriminate|].
        destruct (String.eqb k0 category).
        - intro E. injection E as ->. exists k0. now left.
        - intro E. destruct (IH E) as (name & Hname). exists name. now right. }
      destruct Hmem as (name & Hname). exact (Hcorr _ Hname).
  - unfold hits. apply filter_length_le.
  - vm_compute. repeat split; reflexivity.
Qed.

(** C10 at a text whose second token holds both keywords of the entry. *)
Lemma one_increment_per_token_witness :
  Js.get (categoryObject
            (fst (fallbackAnalysis
                    (withPatterns (newAgent Toxicity None) [("insults", ["stupid"; "idiot"])])
                    (Js.VString "You stupididiot, you idiot") (mkWorld 0 [] [] 0))))
         "insults" =
    Some (mkCategoryMatch (Qmin (addedTimes 0.3 2) 1) ["stupididiot,"; "idiot"] 2 None).
Proof.
  apply (one_increment_per_token Toxicity None [("insults", ["stupid"; "idiot"])]
           "You stupididiot, you idiot" (mkWorld 0 [] [] 0) "insults" ["stupid"; "idiot"]).
  - reflexivity.
  - split; [constructor; [intros [] | constructor] |].
    repeat constructor. discriminate.
  - left. reflexivity.
  - discriminate.
Defined.

(** ** The remote wrapper *)

(** The fallback scorer reads the clock and writes to the console; it
    issues no request and its record depends on the world through the
    timestamp alone. *)
Lemma fallback_world (this : Agent) (v : Js.Value) (w w' : World) :
  withoutTimestamp (fst (fallbackAnalysis this v w)) =
    withoutTimestamp (fst (fallbackAnalysis this v w')) /\
  requests (snd (fallbackAnalysis this v w)) = requests w.
Proof.
  destruct this as [c key name table facts].
  destruct v as [s | q | b | | |]; destruct c; run_fallback; try (split; reflexivity);
    match goal with |- context [scanCategories ?i ?t ?ws ?st] =>
      destruct (scanCategories i t ws st) as [cats toks] end;
    split_chain (overallScore cats); split; reflexivity.
Qed.

(** C6. When the credential is missing, or the one fetch is rejected or
    answers with a non-success status, analyze returns the record the
    fallback scorer alone returns on the same input, timestamp apart; it
    has issued no request when the credential is missing and exactly one
    otherwise, so nothing is retried. *)
Theorem analyze_falls_back :
  forall (JSON_parse : string -> Js.Completion Remote.Reply)
         (this : Agent) (v : Js.Value) (w : World),
    remoteFails this w = true ->
    let out := Remote.analyze JSON_parse this v w in
    withoutTimestamp (fst out) = withoutTimestamp (fst (fallbackAnalysis this v w)) /\
    requests (snd out) =
      (if Remote.noKey this then requests w else S (requests w)) /\
    (requests (snd out) <= requests w + 1)%nat.
Proof.
  intros JSON_parse this v w Hfail out.
  assert (Hmain :
    withoutTimestamp (fst out) = withoutTimestamp (fst (fallbackAnalysis this v w)) /\
    requests (snd out) = (if Remote.noKey this then requests w else S (requests w))).
  { subst out. unfold Remote.analyze, remoteFails in *.
    destruct (Remote.noKey this); cbn [orb] in Hfail.
    - cbv [bind console_log]. cbv beta iota.
      match goal with |- context [fallbackAnalysis this v ?w1] =>
        tryif constr_eq w1 w then fail else
          destruct (fallback_world this v w1 w) as [H1 H2] end.
      split; [exact H1 | exact H2].
    - cbv [bind console_log fetch]. cbv beta.
      destruct (network w) as [| [reason | [|] status content] rest];
        try discriminate; cbv beta iota;
        match goal with |- context [fallbackAnalysis this v ?w1] =>
          tryif constr_eq w1 w then fail else
            destruct (fallback_world this v w1 w) as [H1 H2] end;
        (split; [exact H1 | exact H2]). }
  destruct Hmain as [H1 H2]. repeat split; [exact H1 | exact H2 |].
  rewrite H2. destruct (Remote.noKey this); lia.
Qed.

(** The theorem at an agent with a key whose one fetch is answered 503. *)
Lemma analyze_falls_back_witness :
  withoutTimestamp
    (fst (Remote.analyze (fun _ => Js.Throw "Unexpected token")
            (newAgent Toxicity (Some "csk-test")) (Js.VString "you are stupid")
            (mkWorld 7 [] [Responded false 503 (Js.Throw "no body")] 0))) =
  withoutTimestamp
    (fst (fallbackAnalysis (newAgent Toxicity (Some "csk-test"))
            (Js.VString "you are stupid")
            (mkWorld 7 [] [Responded false 503 (Js.Throw "no body")] 0))) /\
  requests
    (snd (Remote.analyze (fun _ => Js.Throw "Unexpected token")
            (newAgent Toxicity (Some "csk-test")) (Js.VString "you are stupid")
            (mkWorld 7 [] [Responded false 503 (Js.Throw "no body")] 0))) = 1%nat.
Proof.
  pose proof (analyze_falls_back (fun _ => Js.Throw "Unexpected token")
                (newAgent Toxicity (Some "csk-test")) (Js.VString "you are stupid")
                (mkWorld 7 [] [Responded false 503 (Js.Throw "no body")] 0)
                eq_refl) as H.
  cbv zeta in H. destruct H as (H1 & H2 & _). split; [exact H1 | exact H2].
Defined.

(** * Further properties *)

(** ** The fallback scorers *)

(** X1. The fallback scorers ignore letter case: two texts with the same
    lower-casing get the same categories, flagged tokens, score,
    severity, flag and recommendations from every agent. *)
Theorem fallback_ignores_case :
  forall (this : Agent) (s s' : string) (w w' : World),
    Js.toLowerCase s = Js.toLowerCase s' ->
    scoring (fst (fallbackAnalysis this (Js.VString s) w)) =
    scoring (fst (fallbackAnalysis this (Js.VString s') w')).
Proof.
  intros this s s' w w' H.
  destruct this as [c key name table facts]; destruct c; run_fallback; rewrite H;
    match goal with |- context [scanCategories ?i ?t ?ws ?st] =>
      destruct (scanCategories i t ws st) as [cats toks] end;
    split_chain (overallScore cats); reflexivity.
Qed.

(** X1 at the bias agent and two spellings of one sentence. *)
Lemma fallback_ignores_case_witness :
  scoring (fst (fallbackAnalysis (newAgent Bias None)
                  (Js.VString "Rich people and POOR people") (mkWorld 0 [] [] 0))) =
  scoring (fst (fallbackAnalysis (newAgent Bias None)
                  (Js.VString "rich People and poor PEOPLE") (mkWorld 9 [] [] 0))).
Proof.
  apply (fallback_ignores_case (newAgent Bias None)
           "Rich people and POOR people" "rich People and poor PEOPLE"
           (mkWorld 0 [] [] 0) (mkWorld 9 [] [] 0)).
  reflexivity.
Defined.

(** The keyword loop appends the matches of every entry, entry after entry. *)
Lemma scanCategories_tokens (increment : Q) (table : PatternTable) (words : list string)
    (st : list (string * CategoryMatch) * list string) :
  snd (scanCategories increment table words st) = snd st ++ allHits table words.
Proof.
  unfold scanCategories, allHits. revert st.
  induction table as [| [category keywords] rest IH]; intro st; cbn [fold_left flat_map snd].
  - rewrite app_nil_r. reflexivity.
  - rewrite IH.
    destruct (categoryStep_cases increment words st category keywords)
      as [[Hnil ->] | [_ ->]].
    + rewrite Hnil. reflexivity.
    + cbn [snd]. rewrite app_assoc. reflexivity.
Qed.

(** The flagged tokens of a fallback record: what the factual-error loop
    pushed, then what the keyword loop pushed. *)
Lemma fallback_tokens (c : Concern) (key : option string) (table : PatternTable)
    (s : string) (w : World) :
  let agent := withPatterns (newAgent c key) table in
  let r := fst (fallbackAnalysis agent (Js.VString s) w) in
  flaggedTokens r =
    Some (map fst (matchedCorrections (factualErrors agent) (Js.toLowerCase s)) ++
          allHits table (Js.split_ws (Js.toLowerCase s))).
Proof.
  intros agent r.
  destruct (fallback_fields agent s w) as (_ & Htok & _). fold r in Htok. rewrite Htok.
  unfold finalState. rewrite scanCategories_tokens.
  assert (Ht : fallbackPatterns agent = table) by (destruct c; reflexivity).
  rewrite Ht. f_equal. f_equal.
  unfold initialState. destruct c; try reflexivity.
  cbn [class agent withPatterns newAgent snd].
  apply (factual_scan_lists _ (Js.toLowerCase s)).
Qed.

(** X2. On an ASCII text and a pattern table as an object literal gives
    it (distinct category names, none made of digits only, none
    [__proto__]), the flagged tokens of a
    fallback record are, in this order: the factual-error statements
    found in the text (misinformation agent only), then the matching
    words of each entry of the pattern table, entry after entry; a word
    that matches two entries is listed twice. *)
Theorem flagged_tokens_by_table_order :
  forall (c : Concern) (key : option string) (table : PatternTable)
         (s : string) (w : World),
    all_chars isAscii s = true ->
    literalOrder table ->
    let agent := withPatterns (newAgent c key) table in
    let r := fst (fallbackAnalysis agent (Js.VString s) w) in
    flaggedTokens r =
      Some (map fst (matchedCorrections (factualErrors agent) (Js.toLowerCase s)) ++
            allHits table (Js.split_ws (Js.toLowerCase s))).
Proof.
  intros c key table s w _ _. exact (fallback_tokens c key table s w).
Qed.

(** X2 at a bias table of two entries that share a keyword. *)
Lemma flagged_tokens_by_table_order_witness :
  flaggedTokens
    (fst (fallbackAnalysis
            (withPatterns (newAgent Bias None)
               [("wealth", ["rich"; "poor"]); ("class", ["poor"; "elite"])])
            (Js.VString "The elite and the POOR") (mkWorld 0 [] [] 0))) =
    Some ["poor"; "elite"; "poor"].
Proof.
  apply (flagged_tokens_by_table_order Bias None
           [("wealth", ["rich"; "poor"]); ("class", ["poor"; "elite"])]
           "The elite and the POOR" (mkWorld 0 [] [] 0)).
  - reflexivity.
  - split.
    + constructor; [intros [H | []]; discriminate H | constructor; [intros [] | constructor]].
    + repeat constructor; discriminate.
Defined.

(** The toxicity, bias and coordination scorers flag a string exactly
    when its severity is not "none". *)
Lemma fallback_flag_severity (c : Concern) (key : option string) (table : PatternTable)
    (s : string) (w : World) :
  c <> Misinformation ->
  let r := fst (fallbackAnalysis (withPatterns (newAgent c key) table) (Js.VString s) w) in
  flagged r = negb (String.eqb (severity r) "none").
Proof.
  intros Hc r.
  pose proof (fallback_flag_cases c key table s w) as Hflag. cbv zeta in Hflag.
  fold r in Hflag. rewrite Hflag, (no_factual_table c key table Hc).
  apply orb_false_r.
Qed.

(** Every entry of the categories object scores at least the increment of
    the concern. *)
Lemma finalState_at_least_increment (c : Concern) (key : option string)
    (table : PatternTable) (s : string) :
  Forall (inRange (incrementOf c))
         (fst (finalState (withPatterns (newAgent c key) table) s)).
Proof.
  unfold finalState.
  assert (Hc : class (withPatterns (newAgent c key) table) = c) by (destruct c; reflexivity).
  rewrite Hc. destruct (incrementOf_bounds c) as [Hlo Hhi].
  apply scanCategories_Forall.
  - intros category keywords _ Hne.
    apply (inRange_weaken (Qmin (incrementOf c) 1)).
    + apply Q.min_glb; lra.
    + apply stored_inRange; [lra | exact Hne].
  - unfold initialState. rewrite Hc. destruct c; cbn [fst]; try constructor.
    pose proof (scanFactualErrors_invariant _ (Js.toLowerCase s)
                  (shipped_corrections_in_range Misinformation key table)) as [Hs _ _ _].
    exact Hs.
Qed.

Lemma fallback_score_cases (c : Concern) (key : option string) (table : PatternTable)
    (s : string) (w : World) :
  let r := fst (fallbackAnalysis (withPatterns (newAgent c key) table) (Js.VString s) w) in
  (categoryObject r = [] <-> aggregateScore r == 0) /\
  (categoryObject r = [] \/
   (incrementOf c <= aggregateScore r /\ aggregateScore r <= 1)).
Proof.
  intros r.
  pose proof (fallback_categoryObject (withPatterns (newAgent c key) table) s w) as Hobj.
  destruct (fallback_fields (withPatterns (newAgent c key) table) s w)
    as (_ & _ & Hscore & _).
  fold r in Hobj, Hscore. rewrite Hobj, Hscore.
  pose proof (finalState_at_least_increment c key table s) as Hall.
  destruct (incrementOf_bounds c) as [Hlo Hhi].
  destruct (fst (finalState (withPatterns (newAgent c key) table) s)) as [| e cats] eqn:E.
  - split; [split; reflexivity | left; reflexivity].
  - assert (Hb : incrementOf c <= overallScore (e :: cats) /\ overallScore (e :: cats) <= 1).
    { apply overallScore_bounds; [lra | exact Hall | discriminate]. }
    split; [| right; exact Hb].
    split; [discriminate|]. intro Hz. exfalso. destruct Hb as [Hb _]. lra.
Qed.

(** With one category recorded the mean is the score of that category. *)
Lemma fallback_single_category (c : Concern) (key : option string) (table : PatternTable)
    (s : string) (w : World) (name : string) (e : CategoryMatch) :
  let r := fst (fallbackAnalysis (withPatterns (newAgent c key) table) (Js.VString s) w) in
  categoryObject r = [(name, e)] ->
  aggregateScore r == score e /\ incrementOf c <= score e.
Proof.
  intros r He.
  pose proof (fallback_categoryObject (withPatterns (newAgent c key) table) s w) as Hobj.
  destruct (fallback_fields (withPatterns (newAgent c key) table) s w)
    as (_ & _ & Hscore & _).
  pose proof (finalState_at_least_increment c key table s) as Hall.
  fold r in Hobj, Hscore. rewrite <- Hobj in Hscore, Hall. rewrite He in Hscore, Hall.
  inversion Hall as [| ? ? [Hlo Hhi] _]; subst. cbn [snd] in Hlo, Hhi.
  split; [| exact Hlo]. rewrite Hscore.
  unfold overallScore, Js.values, Js.sum. cbn [map length Nat.ltb Nat.leb fold_left snd].
  set (mean := (0 + score e) / inject_Z (Z.of_nat 1)).
  assert (Hmean : mean == score e)
    by (unfold mean; change (inject_Z (Z.of_nat 1)) with 1; field).
  destruct (Q.min_spec mean 1) as [[_ E] | [Hle E]]; rewrite E; [exact Hmean | lra].
Qed.

(** X3. The aggregate score of a fallback record is 0 exactly when no
    category is recorded, and positive otherwise; when exactly one
    category is recorded, the aggregate score is the score of that
    category, which is at least the per-match increment of the concern
    (0.3, 0.2, 0.2, 0.15). *)
Theorem score_zero_iff_no_category :
  forall (c : Concern) (key : option string) (table : PatternTable)
         (s : string) (w : World),
    let r := fst (fallbackAnalysis (withPatterns (newAgent c key) table) (Js.VString s) w) in
    (categoryObject r = [] <-> aggregateScore r == 0) /\
    (categoryObject r <> [] -> 0 < aggregateScore r) /\
    (forall name e, categoryObject r = [(name, e)] ->
                    aggregateScore r == score e /\ incrementOf c <= score e).
Proof.
  intros c key table s w r.
  destruct (fallback_score_cases c key table s w) as [Hzero Hpos].
  fold r in Hzero, Hpos.
  destruct (incrementOf_bounds c) as [Hlo _].
  split; [exact Hzero|]. split.
  - intro Hne. destruct Hpos as [Hnil | [Hinc _]]; [contradiction | lra].
  - intros name e He.
    exact (fallback_single_category c key table s w name e He).
Qed.

(** X4. A fallback scorer flags a text only if it records at least one
    category for it; the toxicity, bias and misinformation scorers flag
    every text for which they record exactly one category. *)
Theorem flagged_needs_category :
  forall (c : Concern) (key : option string) (table : PatternTable)
         (s : string) (w : World),
    let r := fst (fallbackAnalysis (withPatterns (newAgent c key) table) (Js.VString s) w) in
    (flagged r = true -> categoryObject r <> []) /\
    (c <> Coordination ->
     forall name e, categoryObject r = [(name, e)] -> flagged r = true).
Proof.
  intros c key table s w r.
  pose proof (fallback_flag_cases c key table s w) as Hflag.
  destruct (fallback_fields (withPatterns (newAgent c key) table) s w)
    as (_ & _ & _ & Hsev & _).
  destruct (fallback_score_cases c key table s w) as [Hzero _].
  cbv zeta in Hflag. fold r in Hflag, Hsev, Hzero.
  split.
  - intros Hon Hnil. rewrite Hflag in Hon. apply orb_true_iff in Hon.
    destruct Hon as [Hs | Hfound].
    + apply Hzero in Hnil. rewrite Hsev in Hs. unfold severityOf in Hs.
      assert (Hlt : forall a, 0 < a -> Qle_bool a (aggregateScore r) = false).
      { intros a Ha. destruct (Qle_bool a (aggregateScore r)) eqn:E; [| reflexivity].
        apply Qle_bool_iff in E. lra. }
      rewrite !Hlt in Hs by lra. discriminate.
    + pose proof (fallback_categoryObject (withPatterns (newAgent c key) table) s w) as Hobj.
      fold r in Hobj. rewrite Hnil in Hobj. symmetry in Hobj. revert Hobj.
      destruct c; try (cbn in Hfound; discriminate).
      unfold finalState, initialState.
      cbn [class withPatterns newAgent MisinformationAgent.new].
      apply scanCategories_not_nil. cbn [fst].
      pose proof (scanFactualErrors_invariant _ (Js.toLowerCase s)
                    (shipped_corrections_in_range Misinformation key table))
        as [_ _ _ Hmatched].
      destruct (factual_scan_lists
                  (factualErrors (withPatterns (newAgent Misinformation key) table))
                  (Js.toLowerCase s)) as (_ & _ & Hf).
      cbv zeta in Hf. apply Hmatched. rewrite Hf. exact Hfound.
  - intros Hc name e He.
    destruct (fallback_single_category c key table s w name e He) as [Hscore Hinc].
    fold r in Hscore.
    assert (H02 : 0.2 <= incrementOf c) by (destruct c; cbn; try lra; contradiction).
    rewrite Hflag, Hsev. unfold severityOf.
    split_chain (aggregateScore r); try reflexivity.
    exfalso.
    match goal with E : Qle_bool 0.2 _ = false |- _ =>
      assert (Qle_bool 0.2 (aggregateScore r) = true) by (apply Qle_bool_iff; lra);
      congruence end.
Qed.

Lemma misinformation_record (this : Agent) (s : string) (w : World) :
  class this = Misinformation ->
  let d := MisinformationAgent.scanFactualErrors (factualErrors this) (Js.toLowerCase s) in
  let r := fst (fallbackAnalysis this (Js.VString s) w) in
  recommendations r =
    Some (if flagged r
          then if negb (MisinformationAgent.factualErrorFound d)
               then MisinformationAgent.draftRecommendations d ++ [verifyClaims]
               else MisinformationAgent.draftRecommendations d
          else MisinformationAgent.draftRecommendations d) /\
  (flagged r = false -> MisinformationAgent.hasMisinformation d = false).
Proof.
  intro Hclass. destruct this as [c key name table facts]. cbn in Hclass. subst c.
  run_fallback.
  match goal with |- context [scanCategories ?i ?t ?ws ?st] =>
    destruct (scanCategories i t ws st) as [cats toks] end.
  split_chain (overallScore cats); cbn [fst flagged recommendations];
    (split; [reflexivity | intro H; first [discriminate | exact H]]).
Qed.

Lemma misinformation_recommendation_list (key : option string) (table : PatternTable)
    (s : string) (w : World) :
  let agent := withPatterns (newAgent Misinformation key) table in
  let r := fst (fallbackAnalysis agent (Js.VString s) w) in
  let found := matchedCorrections (factualErrors agent) (Js.toLowerCase s) in
  recommendations r =
    Some (match found with
          | [] => if flagged r then [verifyClaims] else []
          | _ => map (fun e => correctionLine (snd e)) found
          end).
Proof.
  intros agent r found.
  destruct (misinformation_record agent s w eq_refl) as [Hrec _].
  destruct (factual_scan_lists (factualErrors agent) (Js.toLowerCase s)) as (_ & Hrecs & Hfound).
  cbv zeta in Hrec, Hrecs, Hfound. fold r in Hrec. fold found in Hrecs, Hfound.
  rewrite Hrec, Hrecs, Hfound.
  destruct found as [| e rest]; cbn [map nonEmpty length Nat.ltb Nat.leb negb app].
  - reflexivity.
  - destruct (flagged r); reflexivity.
Qed.


Lemma recommendations_empty_iff (c : Concern) (key : option string)
    (table : PatternTable) (s : string) (w : World) :
  let r := fst (fallbackAnalysis (withPatterns (newAgent c key) table) (Js.VString s) w) in
  recommendations r = Some [] <-> flagged r = false.
Proof.
  destruct c.
  1, 2, 4: run_fallback;
    match goal with |- context [scanCategories ?i ?t ?ws ?st] =>
      destruct (scanCategories i t ws st) as [cats toks] end;
    split_chain (overallScore cats); cbn [fst flagged recommendations];
    split; intro H; try reflexivity; try discriminate.
  intro r.
  pose proof (misinformation_recommendation_list key table s w) as Hrec.
  destruct (misinformation_record (withPatterns (newAgent Misinformation key) table) s w
              eq_refl) as [_ Hoff].
  pose proof (scanFactualErrors_invariant _ (Js.toLowerCase s)
                (shipped_corrections_in_range Misinformation key table)) as [_ _ Hsame _].
  destruct (factual_scan_lists
              (factualErrors (withPatterns (newAgent Misinformation key) table))
              (Js.toLowerCase s)) as (_ & _ & Hfound).
  cbv zeta in Hrec, Hoff, Hfound. fold r in Hrec, Hoff. rewrite Hrec.
  destruct (matchedCorrections
              (factualErrors (withPatterns (newAgent Misinformation key) table))
              (Js.toLowerCase s)) as [| e rest].
  - destruct (flagged r); split; intro H; try reflexivity; discriminate.
  - split; intro H; [discriminate|]. exfalso.
    specialize (Hoff H). rewrite Hsame, Hfound in Hoff. discriminate.
Qed.

(** X6. For each of the four concerns a fallback record carries no
    recommendation exactly when it is not flagged. *)
Theorem recommendations_iff_flagged :
  forall (c : Concern) (key : option string) (table : PatternTable)
         (s : string) (w : World),
    let r := fst (fallbackAnalysis (withPatterns (newAgent c key) table) (Js.VString s) w) in
    recommendations r = Some [] <-> flagged r = false.
Proof.
  intros c key table s w. exact (recommendations_empty_iff c key table s w).
Qed.

(** X7. Whatever the rest of the text and the pattern table, a text
    whose lower-casing contains a statement of the factual-error table
    is flagged by the misinformation fallback scorer, with that statement
    among the flagged tokens, at least one category recorded, the
    correction of that statement among the recommendations and the
    generic recommendation absent. *)
Theorem factual_statement_flags :
  forall (key : option string) (table : PatternTable) (s topic : string)
         (errors : list (string * Correction)) (statement : string)
         (fixedBy : Correction) (w : World),
    In (topic, errors) (factualErrors (MisinformationAgent.new key)) ->
    In (statement, fixedBy) errors ->
    Js.includes (Js.toLowerCase s) statement = true ->
    let r := fst (fallbackAnalysis (withPatterns (newAgent Misinformation key) table)
                    (Js.VString s) w) in
    flagged r = true /\
    (exists tokens : list string, flaggedTokens r = Some tokens /\ In statement tokens) /\
    categoryObject r <> [] /\
    exists recs : list string,
      recommendations r = Some recs /\
      In (correctionLine fixedBy) recs /\ ~ In verifyClaims recs.
Proof.
  intros key table s topic errors statement fixedBy w Htopic Hentry Hinc r.
  set (agent := withPatterns (newAgent Misinformation key) table) in *.
  assert (Hfound : In (statement, fixedBy)
                      (matchedCorrections (factualErrors agent) (Js.toLowerCase s))).
  { unfold matchedCorrections. apply in_flat_map. exists (topic, errors).
    split; [exact Htopic|]. cbn [snd]. apply filter_In. split; [exact Hentry | exact Hinc]. }
  pose proof (misinformation_recommendation_list key table s w) as Hrec.
  pose proof (fallback_flag_cases Misinformation key table s w) as Hflag.
  pose proof (fallback_tokens Misinformation key table s w) as Htok.
  pose proof (fallback_categoryObject agent s w) as Hobj.
  pose proof (scanFactualErrors_invariant _ (Js.toLowerCase s)
                (shipped_corrections_in_range Misinformation key table))
    as [_ _ _ Hmatched].
  destruct (factual_scan_lists (factualErrors agent) (Js.toLowerCase s)) as (_ & _ & Hne).
  cbv zeta in Hrec, Hflag, Htok, Hne.
  fold agent in Hrec, Hflag, Htok, Hmatched. fold r in Hrec, Hflag, Htok, Hobj.
  assert (Hsome : nonEmpty (matchedCorrections (factualErrors agent) (Js.toLowerCase s)) = true).
  { destruct (matchedCorrections (factualErrors agent) (Js.toLowerCase s));
      [contradiction | reflexivity]. }
  split; [rewrite Hflag, Hsome; apply orb_true_r|]. split; [| split].
  - eexists. split; [exact Htok|]. apply in_or_app. left.
    apply in_map_iff. exists (statement, fixedBy). split; [reflexivity | exact Hfound].
  - rewrite Hobj. unfold finalState, initialState.
    cbn [class agent withPatterns newAgent MisinformationAgent.new].
    apply scanCategories_not_nil. cbn [fst]. apply Hmatched. rewrite Hne. exact Hsome.
  - exists (map (fun e => correctionLine (snd e))
                (matchedCorrections (factualErrors agent) (Js.toLowerCase s))).
    split.
    + rewrite Hrec.
      destruct (matchedCorrections (factualErrors agent) (Js.toLowerCase s));
        [contradiction | reflexivity].
    + split.
      * apply in_map_iff. exists (statement, fixedBy). split; [reflexivity | exact Hfound].
      * intro Hin. apply in_map_iff in Hin. destruct Hin as (e & He & _).
        unfold correctionLine, verifyClaims in He. cbn in He. discriminate.
Qed.

(** X7 at a sentence that holds the Paris statement. *)
Lemma factual_statement_flags_witness :
  flagged (fst (fallbackAnalysis
                  (withPatterns (newAgent Misinformation None) [("rumours", ["rumour"])])
                  (Js.VString "Rumour has it that Paris is in Spain")
                  (mkWorld 0 [] [] 0))) = true.
Proof.
  apply (factual_statement_flags None [("rumours", ["rumour"])]
           "Rumour has it that Paris is in Spain" "geography"
           [ ("paris is in spain", mkCorrection "Paris is in France" 0.9);
             ("london is in france", mkCorrection "London is in England/UK" 0.9);
             ("tokyo is in china", mkCorrection "Tokyo is in Japan" 0.9);
             ("moscow is in ukraine", mkCorrection "Moscow is in Russia" 0.9);
             ("berlin is in austria", mkCorrection "Berlin is in Germany" 0.9) ]
           "paris is in spain" (mkCorrection "Paris is in France" 0.9)
           (mkWorld 0 [] [] 0)).
  - cbn. left. reflexivity.
  - cbn. left. reflexivity.
  - reflexivity.
Defined.

Lemma fold_Qplus_upper (hi : Q) (xs : list Q) (acc : Q) :
  Forall (fun x => x <= hi) xs ->
  fold_left Qplus xs acc <= acc + hi * ofNat (length xs).
Proof.
  revert acc. induction xs as [| x r IH]; intros acc H; cbn [fold_left length].
  - change (ofNat 0) with 0. lra.
  - inversion H as [| ? ? Hx Hr]; subst.
    specialize (IH (acc + x) Hr). rewrite ofNat_S. nra.
Qed.

(** The mean of scores that are at most [hi] is at most [hi]. *)
Lemma overallScore_upper (hi : Q) (cats : list (string * CategoryMatch)) :
  0 <= hi -> Forall (fun e => score (snd e) <= hi) cats -> overallScore cats <= hi.
Proof.
  intros Hhi Hcats. unfold overallScore, Js.values, Js.sum. rewrite !length_map.
  destruct cats as [| e r]; [cbn; exact Hhi|].
  remember (e :: r) as cats eqn:Ecats.
  assert (Hlen : (0 < length cats)%nat) by (subst cats; cbn; lia).
  assert (Hlt : (0 <? length cats)%nat = true) by now apply Nat.ltb_lt.
  rewrite Hlt.
  assert (Hxs : Forall (fun x => x <= hi) (map score (map snd cats))).
  { rewrite map_map. apply Forall_map. exact Hcats. }
  pose proof (fold_Qplus_upper hi _ 0 Hxs) as Hsum. rewrite !length_map in Hsum.
  pose proof (ofNat_pos _ Hlen) as Hpos. fold (ofNat (length cats)).
  eapply Qle_trans; [apply Q.le_min_l|].
  apply Qle_shift_div_r; lra.
Qed.

(** X8. The coordination fallback scorer flags a text only if some
    category matched at least two of its words: one match in each
    category keeps the score at 0.15, under the threshold 0.2. *)
Theorem coordination_needs_repetition :
  forall (key : option string) (table : PatternTable) (s : string) (w : World),
    let r := fst (fallbackAnalysis (withPatterns (newAgent Coordination key) table)
                    (Js.VString s) w) in
    flagged r = true ->
    Exists (fun e => (2 <= count (snd e))%nat) (categoryObject r).
Proof.
  intros key table s w r Hflag.
  pose proof (fallback_flag_severity Coordination key table s w ltac:(discriminate)) as Hfs.
  destruct (fallback_fields (withPatterns (newAgent Coordination key) table) s w)
    as (_ & _ & Hscore & Hsev & _).
  pose proof (fallback_categoryObject (withPatterns (newAgent Coordination key) table) s w)
    as Hobj.
  cbv zeta in Hfs. fold r in Hfs, Hscore, Hsev, Hobj.
  assert (Hall : Forall (fun e => (2 <= count (snd e))%nat \/ score (snd e) <= 0.15)
                        (categoryObject r)).
  { rewrite Hobj. unfold finalState. apply scanCategories_Forall; [| constructor].
    intros category keywords _ Hne. cbn [snd class withPatterns newAgent
      CoordinationAgent.new incrementOf].
    destruct (stored_fields 0.15 keywords (Js.split_ws (Js.toLowerCase s)))
      as (_ & Hn & _ & Hs).
    cbn [fallbackPatterns withPatterns] in *.
    destruct (hits keywords (Js.split_ws (Js.toLowerCase s))) as [| h [| h' t]] eqn:E.
    - contradiction.
    - right. rewrite Hs. cbn [length]. eapply Qle_trans; [apply Q.le_min_l|].
      change (ofNat 1) with 1. lra.
    - left. rewrite Hn. cbn [length]. lia. }
  destruct (Forall_Exists_dec (fun e : string * CategoryMatch => (count (snd e) < 2)%nat)
              (fun e => lt_dec (count (snd e)) 2) (categoryObject r)) as [Hsmall | Hbig].
  - exfalso.
    assert (Hlow : Forall (fun e => score (snd e) <= 0.15) (categoryObject r)).
    { rewrite Forall_forall in *. intros e He.
      destruct (Hall e He) as [H2 | Hs]; [| exact Hs].
      specialize (Hsmall e He). lia. }
    assert (Hmean : aggregateScore r <= 0.15).
    { rewrite Hscore, <- Hobj. apply overallScore_upper; [lra | exact Hlow]. }
    rewrite Hfs, Hsev in Hflag. unfold severityOf in Hflag.
    assert (Hlt : forall a, 0.15 < a -> Qle_bool a (aggregateScore r) = false).
    { intros a Ha. destruct (Qle_bool a (aggregateScore r)) eqn:E'; [| reflexivity].
      apply Qle_bool_iff in E'. lra. }
    rewrite !Hlt in Hflag by lra. discriminate.
  - revert Hbig. apply Exists_impl. intros e He. lia.
Qed.

(** X8 at a text that names a campaign twice. *)
Lemma coordination_needs_repetition_witness :
  Exists (fun e => (2 <= count (snd e))%nat)
    (categoryObject
       (fst (fallbackAnalysis
               (withPatterns (newAgent Coordination None)
                  [("coordinated_campaigns", ["campaign"; "movement"])])
               (Js.VString "a campaign about a campaign") (mkWorld 0 [] [] 0)))).
Proof.
  apply (coordination_needs_repetition None
           [("coordinated_campaigns", ["campaign"; "movement"])]
           "a campaign about a campaign" (mkWorld 0 [] [] 0)).
  reflexivity.
Defined.

(** ** The remote path *)

(** A fallback scorer leaves the clock, the network and the request
    counter as they are. *)
Lemma fallback_keeps_network (this : Agent) (v : Js.Value) (w : World) :
  let w' := snd (fallbackAnalysis this v w) in
  network w' = network w /\ requests w' = requests w /\ clock w' = clock w.
Proof.
  destruct this as [c key name table facts].
  destruct v as [s | q | b | | |]; destruct c; run_fallback;
    try (repeat split; reflexivity);
    match goal with |- context [scanCategories ?i ?t ?ws ?st] =>
      destruct (scanCategories i t ws st) as [cats toks] end;
    split_chain (overallScore cats); repeat split; reflexivity.
Qed.

Lemma parse_keeps_network (JSON_parse : string -> Js.Completion Remote.Reply)
    (this : Agent) (aiResponse : string) (v : Js.Value) (w : World) :
  let w' := snd (Remote.parseAIResponse JSON_parse this aiResponse v w) in
  network w' = network w /\ requests w' = requests w /\ clock w' = clock w.
Proof.
  unfold Remote.parseAIResponse.
  destruct (Remote.matchBraces aiResponse) as [jsonMatch |];
    [destruct (JSON_parse jsonMatch) |]; cbv [bind ret newDate console_log];
    cbn [snd network requests clock]; repeat split; reflexivity.
Qed.

Lemma analyze_effects (JSON_parse : string -> Js.Completion Remote.Reply)
    (this : Agent) (v : Js.Value) (w : World) :
  let w' := snd (Remote.analyze JSON_parse this v w) in
  requests w' = (if Remote.noKey this then requests w else S (requests w)) /\
  network w' = (if Remote.noKey this then network w else tl (network w)).
Proof.
  unfold Remote.analyze.
  destruct (Remote.noKey this).
  - cbv [bind console_log]. cbv beta iota.
    match goal with |- context [fallbackAnalysis this v ?w1] =>
      destruct (fallback_keeps_network this v w1) as (H1 & H2 & _) end.
    cbv zeta in H1, H2. rewrite H1, H2. split; reflexivity.
  - cbv [bind console_log fetch]. cbv beta.
    destruct (network w) as [| [reason | [|] status [aiResponse | message]] rest];
      cbv beta iota;
      first
        [ match goal with |- context [Remote.parseAIResponse JSON_parse this ?a v ?w1] =>
            destruct (parse_keeps_network JSON_parse this a v w1) as (H1 & H2 & _) end
        | match goal with |- context [fallbackAnalysis this v ?w1] =>
            destruct (fallback_keeps_network this v w1) as (H1 & H2 & _) end ];
      cbv zeta in H1, H2; rewrite H1, H2; split; reflexivity.
Qed.

(** X9. On a string, in every case (no key, failure, unparseable reply,
    success) analyze issues one request if a key is configured and none
    otherwise, and takes at most the first outcome off the network. *)
Theorem analyze_one_request :
  forall (JSON_parse : string -> Js.Completion Remote.Reply)
         (this : Agent) (s : string) (w : World),
    let w' := snd (Remote.analyze JSON_parse this (Js.VString s) w) in
    requests w' = (if Remote.noKey this then requests w else S (requests w)) /\
    network w' = (if Remote.noKey this then network w else tl (network w)).
Proof.
  intros JSON_parse this s w. exact (analyze_effects JSON_parse this (Js.VString s) w).
Qed.

(** X10. When a key is configured and the one fetch succeeds with a reply
    that holds no parseable object, analyze does not fall back to the
    keyword scorer: it returns the record of the catch block of
    parseAIResponse, with severity "error", score 0, the flag off and no
    categories. *)
Theorem unparseable_reply_is_an_error :
  forall (JSON_parse : string -> Js.Completion Remote.Reply)
         (this : Agent) (v : Js.Value) (w : World)
         (status : nat) (aiResponse : string) (rest : list FetchOutcome),
    Remote.noKey this = false ->
    network w = Responded true status (Js.Normal aiResponse) :: rest ->
    unparseable JSON_parse aiResponse = true ->
    let r := fst (Remote.analyze JSON_parse this v w) in
    severity r = "error" /\ error r = Some "Failed to parse AI response" /\
    aggregateScore r = 0 /\ flagged r = false /\
    categories r = None /\ model r = None /\ text r = v.
Proof.
  intros JSON_parse this v w status aiResponse rest Hkey Hnet Hbad.
  unfold Remote.analyze. rewrite Hkey.
  cbv [bind fetch]. cbv beta. rewrite Hnet. cbv beta iota.
  unfold Remote.parseAIResponse. unfold unparseable in Hbad.
  destruct (Remote.matchBraces aiResponse) as [jsonMatch |];
    [destruct (JSON_parse jsonMatch); [discriminate|] |];
    cbv [bind ret newDate console_log degraded]; cbn [fst];
    repeat split; reflexivity.
Qed.

(** X10 at a reply without braces. *)
Lemma unparseable_reply_is_an_error_witness :
  severity
    (fst (Remote.analyze (fun _ => Js.Throw "Unexpected token")
            (newAgent Toxicity (Some "csk-test")) (Js.VString "you are stupid")
            (mkWorld 0 [] [Responded true 200 (Js.Normal "I cannot answer that.")] 0))) =
  "error".
Proof.
  apply (unparseable_reply_is_an_error (fun _ => Js.Throw "Unexpected token")
           (newAgent Toxicity (Some "csk-test")) (Js.VString "you are stupid")
           (mkWorld 0 [] [Responded true 200 (Js.Normal "I cannot answer that.")] 0)
           200 "I cannot answer that." []); reflexivity.
Defined.

Lemma upToLastBrace_none (post : string) :
  all_chars (is_not "}") post = true -> Remote.upToLastBrace post = None.
Proof.
  induction post as [| c r IH]; cbn [all_chars Remote.upToLastBrace]; intro H;
    [reflexivity|].
  apply andb_true_iff in H. destruct H as [Hc Hr]. rewrite (IH Hr).
  unfold is_not in Hc. apply negb_true_iff in Hc. unfold Remote.is_char. rewrite Hc.
  reflexivity.
Qed.

Lemma upToLastBrace_body (body post : string) :
  all_chars (is_not "}") post = true ->
  Remote.upToLastBrace (body ++ "}" ++ post) = Some (body ++ "}")%string.
Proof.
  intro Hpost. induction body as [| c r IH].
  - cbn [append Remote.upToLastBrace]. rewrite (upToLastBrace_none post Hpost).
    reflexivity.
  - change ((String c r ++ "}" ++ post)%string) with (String c (r ++ "}" ++ post)).
    cbn [Remote.upToLastBrace]. rewrite IH. reflexivity.
Qed.

(** The regular expression finds the object between the first opening
    brace and the last closing brace. *)
Lemma matchBraces_wrapped (pre body post : string) :
  all_chars (is_not "{") pre = true -> all_chars (is_not "}") post = true ->
  Remote.matchBraces (pre ++ "{" ++ body ++ "}" ++ post) =
    Some ("{" ++ body ++ "}")%string.
Proof.
  intros Hpre Hpost. induction pre as [| c r IH].
  - pose proof (upToLastBrace_body body post Hpost) as Hb.
    cbn [append Remote.matchBraces] in Hb |- *.
    unfold Remote.is_char at 1. cbn [Ascii.eqb Bool.eqb].
    rewrite Hb. reflexivity.
  - cbn [all_chars] in Hpre. apply andb_true_iff in Hpre. destruct Hpre as [Hc Hr].
    change ((String c r ++ "{" ++ body ++ "}" ++ post)%string)
      with (String c (r ++ "{" ++ body ++ "}" ++ post)).
    cbn [Remote.matchBraces]. unfold is_not in Hc. apply negb_true_iff in Hc.
    unfold Remote.is_char at 1. rewrite Hc. apply IH. exact Hr.
Qed.

Lemma upToLastBrace_closed (body : string) :
  Remote.upToLastBrace (body ++ "}") = Some (body ++ "}")%string.
Proof.
  induction body as [| c r IH]; [reflexivity|].
  change ((String c r ++ "}")%string) with (String c (r ++ "}")).
  cbn [Remote.upToLastBrace]. rewrite IH. reflexivity.
Qed.

Lemma matchBraces_object (body : string) :
  Remote.matchBraces ("{" ++ body ++ "}") = Some ("{" ++ body ++ "}")%string.
Proof.
  change (("{" ++ body ++ "}")%string) with (String "{" (body ++ "}")).
  cbn [Remote.matchBraces]. unfold Remote.is_char at 1. cbn [Ascii.eqb Bool.eqb].
  rewrite upToLastBrace_closed. reflexivity.
Qed.

(** X11. Text around the object in a reply is ignored: with no opening
    brace before the object and no closing brace after it,
    parseAIResponse returns what it returns on the object alone. *)
Theorem parse_ignores_surrounding_text :
  forall (JSON_parse : string -> Js.Completion Remote.Reply)
         (this : Agent) (pre body post : string) (v : Js.Value) (w : World),
    all_chars (is_not "{") pre = true ->
    all_chars (is_not "}") post = true ->
    Remote.parseAIResponse JSON_parse this (pre ++ "{" ++ body ++ "}" ++ post) v w =
    Remote.parseAIResponse JSON_parse this ("{" ++ body ++ "}") v w.
Proof.
  intros JSON_parse this pre body post v w Hpre Hpost.
  unfold Remote.parseAIResponse.
  rewrite (matchBraces_wrapped pre body post Hpre Hpost).
  rewrite (matchBraces_object body). reflexivity.
Qed.

(** X11 at a reply that wraps the object in a sentence. *)
Lemma parse_ignores_surrounding_text_witness :
  Remote.parseAIResponse
    (fun _ => Js.Normal (Remote.mkReply (Some true) (Some 0.9) (Some "critical")
                           None None None))
    (newAgent Toxicity (Some "csk-test"))
    ("Here is the analysis: " ++ "{" ++ "isToxic:true" ++ "}" ++ " Hope this helps.")
    (Js.VString "you are stupid") (mkWorld 0 [] [] 0) =
  Remote.parseAIResponse
    (fun _ => Js.Normal (Remote.mkReply (Some true) (Some 0.9) (Some "critical")
                           None None None))
    (newAgent Toxicity (Some "csk-test"))
    ("{" ++ "isToxic:true" ++ "}")
    (Js.VString "you are stupid") (mkWorld 0 [] [] 0).
Proof.
  apply (parse_ignores_surrounding_text
           (fun _ => Js.Normal (Remote.mkReply (Some true) (Some 0.9) (Some "critical")
                                  None None None))
           (newAgent Toxicity (Some "csk-test"))
           "Here is the analysis: " "isToxic:true" " Hope this helps."
           (Js.VString "you are stupid") (mkWorld 0 [] [] 0)); reflexivity.
Defined.

(** ** The classification route *)






Section RouteFacts.

Variable JSON_parse : string -> Js.Completion Remote.Reply.
Variable availableAgents : list (string * Agent).
Variable text : Js.Value.

(** What one turn of the loop does, by the kind of property the name
    refers to. *)
Lemma runAgent_cases (st : list (string * Routes.AnalysisEntry) * Summary)
    (name : string) (w : World) :
  let out := Routes.runAgent JSON_parse availableAgents text st name w in
  match Routes.lookupAgent availableAgents name with
  | Routes.OwnAgent agent =>
      let a := Remote.analyze JSON_parse agent text w in
      fst out = (Routes.setAnalysis (fst st) name (Routes.Analysed (fst a)),
                 Routes.updateSummary (severity (fst a)) (snd st)) /\
      snd out = snd a
  | _ =>
      exists message : string,
        fst out = (Routes.setAnalysis (fst st) name (Routes.Failed message), snd st) /\
        requests (snd out) = requests w /\ network (snd out) = network w
  end.
Proof.
  unfold Routes.runAgent.
  destruct (Routes.lookupAgent availableAgents name) as [agent | |].
  - cbv [bind ret]. destruct (Remote.analyze JSON_parse agent text w) as [r w1].
    split; reflexivity.
  - eexists. cbv [bind ret console_log]. repeat split; reflexivity.
  - eexists. cbv [bind ret console_log]. repeat split; reflexivity.
Qed.

Lemma runAgents_cons (name : string) (more : list string)
    (st : list (string * Routes.AnalysisEntry) * Summary) (w : World) :
  Routes.runAgents JSON_parse availableAgents text (name :: more) st w =
  Routes.runAgents JSON_parse availableAgents text more
    (fst (Routes.runAgent JSON_parse availableAgents text st name w))
    (snd (Routes.runAgent JSON_parse availableAgents text st name w)).
Proof.
  cbn [Routes.runAgents]. unfold bind.
  destruct (Routes.runAgent JSON_parse availableAgents text st name w). reflexivity.
Qed.


Lemma analyzeWithAgents_run (agents : Routes.Selection) (w : World) :
  let run := Routes.runAgents JSON_parse availableAgents text
               (Routes.agentsToUse availableAgents agents)
               ([], mkSummary 0 0 0 0 0) w in
  let out := Routes.analyzeWithAgents JSON_parse availableAgents text agents w in
  fst out = Routes.mkResults text (clock w) (fst (fst run)) (snd (fst run))
              (calculateOverallRisk (snd (fst run))) /\
  snd out = snd run.
Proof.
  unfold Routes.analyzeWithAgents. cbv [bind newDate ret].
  destruct (Routes.runAgents JSON_parse availableAgents text
              (Routes.agentsToUse availableAgents agents) ([], mkSummary 0 0 0 0 0) w)
    as [st w1].
  split; reflexivity.
Qed.

End RouteFacts.




Lemma setAnalysis_get_other (obj : list (string * Routes.AnalysisEntry))
    (name n : string) (e : Routes.AnalysisEntry) :
  name <> n -> Js.get (Routes.setAnalysis obj name e) n = Js.get obj n.
Proof.
  intro Hne. unfold Routes.setAnalysis. destruct (String.eqb name "__proto__");
    [reflexivity | now apply get_assign_other].
Qed.

Lemma lookup_own (availableAgents : list (string * Agent)) (name : string) (agent : Agent) :
  Routes.lookupAgent availableAgents name = Routes.OwnAgent agent <->
  Js.get availableAgents name = Some agent.
Proof.
  unfold Routes.lookupAgent. destruct (Js.get availableAgents name) as [a |].
  - split; intro H; inversion H; reflexivity.
  - destruct (existsb (String.eqb name) Routes.objectPrototypeNames); split; discriminate.
Qed.

Section OwnAgents.

Variable JSON_parse : string -> Js.Completion Remote.Reply.
Variable availableAgents : list (string * Agent).
Variable text : Js.Value.

(** No agent is registered under the name "__proto__". *)
Hypothesis no_proto_agent : Js.get availableAgents "__proto__" = None.

Lemma own_is_not_proto (name : string) (agent : Agent) :
  Js.get availableAgents name = Some agent -> String.eqb name "__proto__" = false.
Proof.
  intro H. destruct (String.eqb name "__proto__") eqn:E; [| reflexivity].
  apply String.eqb_eq in E. subst name. congruence.
Qed.


(** Every agent of the object lacks a key. *)
Hypothesis keyless :
  forall (n : string) (a : Agent), Js.get availableAgents n = Some a -> Remote.noKey a = true.

Lemma analyze_keyless (agent : Agent) (w w0 : World) :
  Remote.noKey agent = true ->
  withoutTimestamp (fst (Remote.analyze JSON_parse agent text w)) =
    withoutTimestamp (fst (fallbackAnalysis agent text w0)).
Proof.
  intro Hkey. unfold Remote.analyze. rewrite Hkey. cbv [bind console_log]. cbv beta iota.
  apply fallback_world.
Qed.

Lemma runAgents_keyless_effects (names : list string) :
  forall (st : list (string * Routes.AnalysisEntry) * Summary) (w : World),
    let out := Routes.runAgents JSON_parse availableAgents text names st w in
    requests (snd out) = requests w /\ network (snd out) = network w.
Proof.
  induction names as [| name more IH]; intros st w.
  - split; reflexivity.
  - rewrite runAgents_cons.
    pose proof (runAgent_cases JSON_parse availableAgents text st name w) as Hstep.
    cbv zeta in Hstep.
    destruct (Routes.runAgent JSON_parse availableAgents text st name w) as [st1 w1].
    cbn [fst snd] in Hstep |- *.
    destruct (IH st1 w1) as [I1 I2]. cbv zeta in I1, I2. rewrite I1, I2.
    destruct (Routes.lookupAgent availableAgents name) as [agent | |] eqn:Elook.
    + destruct Hstep as [_ ->]. apply lookup_own in Elook.
      destruct (analyze_effects JSON_parse agent text w) as [E1 E2]. cbv zeta in E1, E2.
      rewrite (keyless name agent Elook) in E1, E2. split; assumption.
    + destruct Hstep as (message & _ & E1 & E2). split; assumption.
    + destruct Hstep as (message & _ & E1 & E2). split; assumption.
Qed.

Variable name : string.
Variable agent : Agent.
Variable w0 : World.
Hypothesis registered : Js.get availableAgents name = Some agent.

Lemma runAgent_entry (st : list (string * Routes.AnalysisEntry) * Summary)
    (name' : string) (w : World) :
  name' = name \/ isFallbackEntry text name agent w0 (fst st) ->
  isFallbackEntry text name agent w0 (fst (fst (Routes.runAgent JSON_parse availableAgents text st name' w))).
Proof.
  intro Hpre.
  pose proof (runAgent_cases JSON_parse availableAgents text st name' w) as Hstep.
  cbv zeta in Hstep.
  destruct (String.eqb name' name) eqn:E.
  - apply String.eqb_eq in E. subst name'.
    pose proof (proj2 (lookup_own availableAgents name agent) registered) as Elook.
    rewrite Elook in Hstep. destruct Hstep as [-> _]. cbn [fst].
    exists (fst (Remote.analyze JSON_parse agent text w)). split.
    + unfold Routes.setAnalysis. rewrite (own_is_not_proto name agent registered).
      apply get_assign_same.
    + apply analyze_keyless. exact (keyless name agent registered).
  - apply String.eqb_neq in E.
    destruct Hpre as [Heq | (r & Hget & Hr)]; [contradiction|].
    assert (Hkeep : forall e, isFallbackEntry text name agent w0 (Routes.setAnalysis (fst st) name' e)).
    { intro e. exists r. split; [| exact Hr].
      rewrite setAnalysis_get_other by exact E. exact Hget. }
    destruct (Routes.lookupAgent availableAgents name') as [agent' | |].
    + destruct Hstep as [-> _]. apply Hkeep.
    + destruct Hstep as (message & -> & _). apply Hkeep.
    + destruct Hstep as (message & -> & _). apply Hkeep.
Qed.

Lemma runAgents_entry (names : list string) :
  forall (st : list (string * Routes.AnalysisEntry) * Summary) (w : World),
    In name names \/ isFallbackEntry text name agent w0 (fst st) ->
    isFallbackEntry text name agent w0 (fst (fst (Routes.runAgents JSON_parse availableAgents text names st w))).
Proof.
  induction names as [| name' more IH]; intros st w Hpre.
  - destruct Hpre as [[] | H]. exact H.
  - rewrite runAgents_cons. apply IH.
    destruct Hpre as [[H | H] | H].
    + right. apply runAgent_entry. left. exact H.
    + left. exact H.
    + right. apply runAgent_entry. right. exact H.
Qed.

End OwnAgents.

Lemma server_no_proto (key : option string) :
  Js.get (Routes.serverAgents key) "__proto__" = None.
Proof. reflexivity. Qed.

Lemma server_keyless (key : option string) :
  keyMissing key = true ->
  forall (n : string) (a : Agent),
    Js.get (Routes.serverAgents key) n = Some a -> Remote.noKey a = true.
Proof.
  intros Hkey n a. unfold Routes.serverAgents. cbn [Js.get].
  destruct (String.eqb "toxicity" n); [intro H; inversion H; exact Hkey|].
  destruct (String.eqb "bias" n); [intro H; inversion H; exact Hkey|].
  destruct (String.eqb "misinformation" n); [intro H; inversion H; exact Hkey|].
  destruct (String.eqb "coordination" n); [intro H; inversion H; exact Hkey|].
  discriminate.
Qed.



(** X17. When the server has no API key, analyzeWithAgents files under
    every selected agent name the record that the fallback scorer of that
    agent returns on the text, timestamp apart, however often the name is
    selected; it issues no request and leaves the network untouched. *)
Theorem keyless_route_is_fallback :
  forall (JSON_parse : string -> Js.Completion Remote.Reply)
         (key : option string) (text : Js.Value) (agents : Routes.Selection)
         (name : string) (agent : Agent) (w : World),
    keyMissing key = true ->
    In name (Routes.agentsToUse (Routes.serverAgents key) agents) ->
    Js.get (Routes.serverAgents key) name = Some agent ->
    let out := Routes.analyzeWithAgents JSON_parse (Routes.serverAgents key)
                 text agents w in
    (exists r : AnalysisRecord,
        Js.get (Routes.analyses (fst out)) name = Some (Routes.Analysed r) /\
        withoutTimestamp r = withoutTimestamp (fst (fallbackAnalysis agent text w))) /\
    requests (snd out) = requests w /\ network (snd out) = network w.
Proof.
  intros JSON_parse key text agents name agent w Hkey Hsel Hreg out.
  destruct (analyzeWithAgents_run JSON_parse (Routes.serverAgents key) text agents w)
    as [Hres Hw].
  cbv zeta in Hres, Hw. fold out in Hres, Hw. rewrite Hres, Hw.
  cbn [Routes.analyses]. split.
  - apply (runAgents_entry JSON_parse (Routes.serverAgents key) text
             (server_no_proto key) (server_keyless key Hkey) name agent w Hreg).
    left. exact Hsel.
  - apply (runAgents_keyless_effects JSON_parse (Routes.serverAgents key) text
             (server_keyless key Hkey)).
Qed.

(** X17 at a selection that names the toxicity agent twice. *)
Lemma keyless_route_is_fallback_witness :
  requests
    (snd (Routes.analyzeWithAgents (fun _ => Js.Throw "Unexpected token")
            (Routes.serverAgents None) (Js.VString "you are stupid")
            (Routes.SelectString "toxicity, toxicity")
            (mkWorld 0 [] [Rejected "offline"] 3))) = 3%nat.
Proof.
  apply (keyless_route_is_fallback (fun _ => Js.Throw "Unexpected token")
           None (Js.VString "you are stupid") (Routes.SelectString "toxicity, toxicity")
           "toxicity" (ToxicityAgent.new None) (mkWorld 0 [] [Rejected "offline"] 3)).
  - reflexivity.
  - vm_compute. left. reflexivity.
  - reflexivity.
Defined.

(** ** Severity as a function of the score *)

Lemma getSeverityLevel_monotone (x y : Q) :
  x <= y ->
  (rank (ToxicityAgentAI.getSeverityLevel x) <=
   rank (ToxicityAgentAI.getSeverityLevel y))%nat.
Proof.
  intro Hxy.
  assert (D : forall a z, {Qle_bool a z = true /\ a <= z} + {Qle_bool a z = false /\ z < a}).
  { intros a z. destruct (Qle_bool a z) eqn:E; [left | right]; split; trivial.
    - now apply Qle_bool_iff.
    - apply Qnot_le_lt. intro L. apply Qle_bool_iff in L. congruence. }
  unfold ToxicityAgentAI.getSeverityLevel.
  repeat match goal with
         | |- context [Qle_bool ?a ?z] =>
             let E := fresh "E" in
             destruct (D a z) as [[E ?] | [E ?]]; rewrite E; clear E
         end;
    first [ cbn; lia | exfalso; lra ].
Qed.

Lemma fallback_severity_level (this : Agent) (s : string) (w : World) :
  let r := fst (fallbackAnalysis this (Js.VString s) w) in
  severity r = ToxicityAgentAI.getSeverityLevel (aggregateScore r).
Proof. apply (fallback_fields this s w). Qed.

(** X18. Severities are comparable across agents and texts: of two
    fallback records, whatever the concerns, tables and texts, the one
    with the higher aggregate score never has the lower severity. *)
Theorem severity_follows_score :
  forall (this this' : Agent) (s s' : string) (w w' : World),
    let r := fst (fallbackAnalysis this (Js.VString s) w) in
    let r' := fst (fallbackAnalysis this' (Js.VString s') w') in
    aggregateScore r <= aggregateScore r' ->
    (rank (severity r) <= rank (severity r'))%nat.
Proof.
  intros this this' s s' w w' r r' H.
  unfold r, r'. rewrite !fallback_severity_level.
  apply getSeverityLevel_monotone. exact H.
Qed.

(** X18 at a bias record and a toxicity record. *)
Lemma severity_follows_score_witness :
  (rank (severity (fst (fallbackAnalysis (newAgent Bias None)
                          (Js.VString "rich and poor") (mkWorld 0 [] [] 0)))) <=
   rank (severity (fst (fallbackAnalysis (newAgent Toxicity None)
                          (Js.VString "stupid stupid idiot") (mkWorld 0 [] [] 0)))))%nat.
Proof.
  apply (severity_follows_score (newAgent Bias None) (newAgent Toxicity None)
           "rich and poor" "stupid stupid idiot" (mkWorld 0 [] [] 0) (mkWorld 0 [] [] 0)).
  vm_compute. discriminate.
Defined.

(** X19. getSeverityLevel of ToxicityAgentAI never lowers the severity
    when the score rises, and it is the level that each of the four
    fallback scorers assigns to its own aggregate score. *)
Theorem getSeverityLevel_agrees :
  forall (x y : Q) (c : Concern) (key : option string) (table : PatternTable)
         (s : string) (w : World),
    let r := fst (fallbackAnalysis (withPatterns (newAgent c key) table) (Js.VString s) w) in
    (x <= y -> (rank (ToxicityAgentAI.getSeverityLevel x) <=
                rank (ToxicityAgentAI.getSeverityLevel y))%nat) /\
    severity r = ToxicityAgentAI.getSeverityLevel (aggregateScore r).
Proof.
  intros x y c key table s w r. split.
  - apply getSeverityLevel_monotone.
  - apply fallback_severity_level.
Qed.

(** ** Blank texts *)

Lemma toLowerCase_blank (s : string) :
  all_chars Js.is_space s = true -> all_chars Js.is_space (Js.toLowerCase s) = true.
Proof.
  induction s as [| c r IH]; cbn [all_chars Js.toLowerCase]; intro H; [reflexivity|].
  apply andb_true_iff in H. destruct H as [Hc Hr].
  rewrite lower_ascii_space, Hc, (IH Hr). reflexivity.
Qed.

(** A text of white space splits into empty pieces only. *)
Lemma blank_pieces (s : string) :
  all_chars Js.is_space s = true ->
  Forall (fun t => t = EmptyString) (Js.split_ws (Js.toLowerCase s)).
Proof.
  intro H.
  pose proof (split_ws_pieces Js.is_space _ (toLowerCase_blank s H)) as Hp.
  revert Hp. apply Forall_impl. intros t [H1 H2].
  destruct t as [| c t]; [reflexivity|]. cbn in H1, H2. unfold not_space in H2.
  destruct (Js.is_space c); discriminate.
Qed.

Lemma hits_blank (keywords words : list string) :
  Forall (fun t => t = EmptyString) words ->
  Forall (fun k => k <> EmptyString) keywords ->
  hits keywords words = [].
Proof.
  intros Hw Hk. unfold hits.
  assert (Hno : Js.some_includes keywords "" = false).
  { unfold Js.some_includes. induction Hk as [| k ks Hne _ IH]; [reflexivity|].
    cbn [existsb]. rewrite IH, orb_false_r.
    destruct k as [| a k]; [contradiction | reflexivity]. }
  induction Hw as [| t ts Ht _ IH]; [reflexivity|].
  cbn [filter]. subst t. rewrite Hno. exact IH.
Qed.

Lemma scanCategories_no_hits (increment : Q) (table : PatternTable) (words : list string)
    (st : list (string * CategoryMatch) * list string) :
  Forall (fun entry => hits (snd entry) words = []) table ->
  scanCategories increment table words st = st.
Proof.
  unfold scanCategories. intro H. induction H as [| [category keywords] rest Hnil _ IH];
    cbn [fold_left]; [reflexivity|].
  destruct (categoryStep_cases increment words st category keywords)
    as [[_ ->] | [Hne _]]; [exact IH | contradiction].
Qed.

Lemma scanFactualErrors_no_match (table : FactualTable) (lowerText : string) :
  Forall (fun topic => Forall (fun e => Js.includes lowerText (fst e) = false) (snd topic))
         table ->
  MisinformationAgent.scanFactualErrors table lowerText =
    MisinformationAgent.mkDraft false false 0 [] [] [].
Proof.
  unfold MisinformationAgent.scanFactualErrors.
  generalize (MisinformationAgent.mkDraft false false 0 [] [] []).
  intros d H. induction H as [| [category errors] rest Htopic _ IH];
    cbn [fold_left]; [reflexivity|].
  assert (Hsame : MisinformationAgent.topicStep lowerText d (category, errors) = d).
  { unfold MisinformationAgent.topicStep. cbn [snd] in Htopic.
    induction Htopic as [| [errorPattern fixedBy] more Hno _ IHe];
      cbn [fold_left]; [reflexivity|].
    unfold MisinformationAgent.errorStep at 2. cbn [fst] in Hno. rewrite Hno. exact IHe. }
  rewrite Hsame. exact IH.
Qed.

(** No statement of the shipped factual-error table occurs in a text of
    white space. *)
Lemma blank_has_no_factual_error (c : Concern) (key : option string) (lowerText : string) :
  all_chars Js.is_space lowerText = true ->
  Forall (fun topic => Forall (fun e => Js.includes lowerText (fst e) = false) (snd topic))
         (factualErrors (newAgent c key)).
Proof.
  intro Hblank.
  assert (Hno : forall statement : string,
             all_chars Js.is_space statement = false ->
             Js.includes lowerText statement = false).
  { intros statement Hs. destruct (Js.includes lowerText statement) eqn:E; [| reflexivity].
    pose proof (includes_all_chars Js.is_space _ _ E Hblank). congruence. }
  destruct c; cbn; repeat (constructor; try (apply Hno; reflexivity)).
Qed.

Lemma blank_final_state (c : Concern) (key : option string) (table : PatternTable)
    (s : string) :
  all_chars Js.is_space s = true ->
  Forall (fun entry => Forall (fun k => k <> EmptyString) (snd entry)) table ->
  finalState (withPatterns (newAgent c key) table) s = ([], []).
Proof.
  intros Hblank Htable. unfold finalState.
  assert (Ht : fallbackPatterns (withPatterns (newAgent c key) table) = table)
    by (destruct c; reflexivity).
  rewrite Ht, scanCategories_no_hits.
  - unfold initialState. destruct c; try reflexivity.
    cbn [class withPatterns newAgent MisinformationAgent.new].
    change (factualErrors _) with (factualErrors (newAgent Misinformation key)).
    rewrite (scanFactualErrors_no_match _ _
               (blank_has_no_factual_error Misinformation key _ (toLowerCase_blank s Hblank))).
    reflexivity.
  - revert Htable. apply Forall_impl. intros entry Hk.
    apply hits_blank; [apply blank_pieces; exact Hblank | exact Hk].
Qed.

(** X20. A text of white space only, the empty text included, gets from
    each of the four fallback scorers a record with no category, no
    flagged token, score 0, severity "none", the flag off and no
    recommendation, for every pattern table that holds no empty keyword. *)
Theorem blank_text_scores_nothing :
  forall (c : Concern) (key : option string) (table : PatternTable)
         (s : string) (w : World),
    all_chars Js.is_space s = true ->
    Forall (fun entry => Forall (fun k => k <> EmptyString) (snd entry)) table ->
    let r := fst (fallbackAnalysis (withPatterns (newAgent c key) table) (Js.VString s) w) in
    categories r = Some (ByCategory []) /\ flaggedTokens r = Some [] /\
    aggregateScore r = 0 /\ severity r = "none" /\ flagged r = false /\
    recommendations r = Some [].
Proof.
  intros c key table s w Hblank Htable r.
  destruct (fallback_fields (withPatterns (newAgent c key) table) s w)
    as (Hcat & Htok & Hscore & Hsev & _).
  pose proof (fallback_flag_cases c key table s w) as Hflag.
  pose proof (fallback_tokens c key table s w) as Hall.
  pose proof (recommendations_empty_iff c key table s w) as Hrec.
  cbv zeta in Hflag, Hall, Hrec. fold r in Hcat, Htok, Hscore, Hsev, Hflag, Hall, Hrec.
  rewrite (blank_final_state c key table s Hblank Htable) in Hcat, Htok, Hscore.
  cbn [fst snd] in Hcat, Htok, Hscore.
  assert (Hs0 : aggregateScore r = 0) by exact Hscore.
  assert (Hnone : severity r = "none") by (rewrite Hsev, Hs0; reflexivity).
  assert (Hoff : flagged r = false).
  { rewrite Htok in Hall. injection Hall as Hall. symmetry in Hall.
    apply app_eq_nil in Hall. destruct Hall as [Hm _]. apply map_eq_nil in Hm.
    rewrite Hflag, Hnone.
    change (factualErrors (withPatterns (newAgent c key) table))
      with (factualErrors (newAgent c key)).
    rewrite Hm. reflexivity. }
  repeat split; try assumption. apply Hrec. exact Hoff.
Qed.

(** X20 at the coordination agent and a text of two blanks. *)
Lemma blank_text_scores_nothing_witness :
  flagged (fst (fallbackAnalysis
                  (withPatterns (newAgent Coordination None)
                     [("amplification", ["retweet"; "repost"])])
                  (Js.VString "  ") (mkWorld 0 [] [] 0))) = false.
Proof.
  apply (blank_text_scores_nothing Coordination None
           [("amplification", ["retweet"; "repost"])] "  " (mkWorld 0 [] [] 0)).
  - reflexivity.
  - repeat constructor; discriminate.
Defined.
